(** * MediaDecoder (src/media/media_decoder.cpp): a shallow embedding

    The model follows the build with RING_VIDEO and RING_ACCEL defined and
    _WIN32 undefined, i.e. the branch of every [#ifndef _WIN32] that uses
    the codecpar API.  Integers of the C++ code are [Z]; conversions between
    integer types are written out with [to_int] and [to_unsigned].  Calls
    into libav and into the collaborators of the decoder (accelerator,
    resampler, ring buffer, clock) are answered by an explicit environment
    record, and the calls out of the decoder that matter below are recorded
    in a trace of [Event]s.  Logging ([RING_DBG], [RING_WARN], [RING_ERR])
    and the rendering of error strings are left out. *)

From stdpp Require Import base gmap strings list pretty.
From Stdlib Require Import ZArith Lia.

Local Open Scope Z_scope.

(** ** Constants and data types of libav used by the decoder *)

Module Libav.

(** [AVERROR(EAGAIN)]: the negated errno (11 on Linux). *)
Definition EAGAIN : Z := 11.
Definition AVERROR (e : Z) : Z := - e.

(** [AVERROR_EOF] is [FFERRTAG('E','O','F',' ')], negated. *)
Definition MKTAG (a b c d : Z) : Z :=
  Z.lor a (Z.lor (Z.shiftl b 8) (Z.lor (Z.shiftl c 16) (Z.shiftl d 24))).
Definition AVERROR_EOF : Z := - MKTAG 69 79 70 32.
Definition AVERROR_INVALIDDATA : Z := - MKTAG 73 78 68 65.

(** [AV_NOPTS_VALUE] is [INT64_MIN]. *)
Definition AV_NOPTS_VALUE : Z := - 2 ^ 63.
Definition AV_TIME_BASE : Z := 1000000.

Inductive AVMediaType :=
| AVMEDIA_TYPE_UNKNOWN
| AVMEDIA_TYPE_VIDEO
| AVMEDIA_TYPE_AUDIO
| AVMEDIA_TYPE_DATA
| AVMEDIA_TYPE_SUBTITLE
| AVMEDIA_TYPE_ATTACHMENT.

Global Instance AVMediaType_eq_dec : EqDecision AVMediaType.
Proof. solve_decision. Defined.

Inductive AVSampleFormat :=
| AV_SAMPLE_FMT_U8
| AV_SAMPLE_FMT_S16
| AV_SAMPLE_FMT_S32
| AV_SAMPLE_FMT_FLT
| AV_SAMPLE_FMT_DBL
| AV_SAMPLE_FMT_U8P
| AV_SAMPLE_FMT_S16P
| AV_SAMPLE_FMT_S32P
| AV_SAMPLE_FMT_FLTP
| AV_SAMPLE_FMT_DBLP.

Global Instance AVSampleFormat_eq_dec : EqDecision AVSampleFormat.
Proof. solve_decision. Defined.

Record AVCodecParameters := {
  codec_type : AVMediaType;
  codec_id : Z
}.

Record AVRational := { num : Z; den : Z }.

Record AVStream := {
  codecpar : AVCodecParameters;
  start_time : Z;
  time_base : AVRational;
  avg_frame_rate : AVRational
}.

Record AVCodec := { codec_name : string; codec_long_name : string }.

Record AVPacket := { stream_index : Z; packet_data : list Z }.

(** The fields of [AVFrame] the decoder reads or writes; the payload
    ([data], [extended_data]) is kept as raw words. *)
Record AVFrame := {
  format : Z;
  pts : Z;
  sample_rate : Z;
  nb_samples : Z;
  frame_data : list Z
}.

Definition set_format (f : Z) (fr : AVFrame) : AVFrame :=
  {| format := f; pts := pts fr; sample_rate := sample_rate fr;
     nb_samples := nb_samples fr; frame_data := frame_data fr |}.

End Libav.
Export Libav.

(** C++ integer conversions. *)
Definition to_unsigned (x : Z) : Z := x mod 2 ^ 32.
Definition to_int (x : Z) : Z := (x + 2 ^ 31) mod 2 ^ 32 - 2 ^ 31.

(** [AudioFormat] (audio/audiobuffer.h): two [unsigned] fields. *)
Record AudioFormat := {
  fmt_sample_rate : Z;
  fmt_nb_channels : Z
}.

#[global] Instance AudioFormat_eq_dec : EqDecision AudioFormat.
Proof. solve_decision. Defined.

(** ** What the decoder takes from outside this file

    The enumerators of [AVPixelFormat] depend on the libav version, the
    type [rational<double>] and [ring::to_string] on doubles come from
    other headers, and the arithmetic of the rate emulator and the DSP of
    the audio buffers are floating point: all of them are parameters of
    the model. *)

Class External := {
  AV_PIX_FMT_YUV420P : Z;
  AV_PIX_FMT_YUV422P : Z;
  AV_PIX_FMT_YUV444P : Z;
  AV_PIX_FMT_YUV440P : Z;
  AV_PIX_FMT_YUVJ420P : Z;
  AV_PIX_FMT_YUVJ422P : Z;
  AV_PIX_FMT_YUVJ444P : Z;
  AV_PIX_FMT_YUVJ440P : Z;
  (* rational<double>, its operator bool and ring::to_string(r.real()) *)
  rational_double : Type;
  rational_bool : rational_double → bool;
  rational_real_to_string : rational_double → string;
  (* static_cast<std::int64_t>((getTimeBase() * (pts - start_time)).real() * 1e6),
     as a function of the time base, pts and start_time *)
  frame_time_us : AVRational → Z → Z → Z;
  (* AudioBuffer::convertFloatPlanarToSigned16 and AudioBuffer::deinterleave:
     payload, sample count, channel count to per-channel samples *)
  convertFloatPlanarToSigned16 : list Z → Z → Z → list (list Z);
  deinterleave : list Z → Z → Z → list (list Z);
  (* the sample-rate conversion inside Resampler::resample, a method of
     the resampler: the format the resampler was constructed for, input
     rate, output rate, input samples to output samples *)
  resample_samples : AudioFormat → Z → Z → list (list Z) → list (list Z)
}.

(** The enumerators named by [correctPixFmt]. *)
Definition pix_fmt_enumerators `{External} : list Z :=
  [AV_PIX_FMT_YUV420P; AV_PIX_FMT_YUV422P; AV_PIX_FMT_YUV444P;
   AV_PIX_FMT_YUV440P; AV_PIX_FMT_YUVJ420P; AV_PIX_FMT_YUVJ422P;
   AV_PIX_FMT_YUVJ444P; AV_PIX_FMT_YUVJ440P].

(** [libavutil/pixfmt.h] of FFmpeg 3.x, with integer stand-ins for the
    floating-point collaborators; used to run the model on concrete
    inputs. *)
Definition ffmpeg3 : External := {|
  AV_PIX_FMT_YUV420P := 0;
  AV_PIX_FMT_YUV422P := 4;
  AV_PIX_FMT_YUV444P := 5;
  AV_PIX_FMT_YUV440P := 33;
  AV_PIX_FMT_YUVJ420P := 12;
  AV_PIX_FMT_YUVJ422P := 13;
  AV_PIX_FMT_YUVJ444P := 14;
  AV_PIX_FMT_YUVJ440P := 34;
  rational_double := Z * Z;
  rational_bool := λ r, negb (r.1 =? 0);
  rational_real_to_string := λ r, pretty (r.1 `div` r.2);
  frame_time_us := λ tb p s, (num tb * (p - s) * 1000000) `div` den tb;
  convertFloatPlanarToSigned16 := λ d _ _, [d];
  deinterleave := λ d _ _, [d];
  resample_samples := λ _ _ _ s, s
|}.

(** ** Data model *)

(** [MediaDecoder::Status] *)
Inductive Status :=
| Success
| FrameFinished
| EOFError
| ReadError
| DecodeError
| RestartRequired.

#[global] Instance Status_eq_dec : EqDecision Status.
Proof. solve_decision. Defined.

(** Modelled from the spec: [AudioBuffer] (audio/audiobuffer.h) is not part
    of the source file.  The spec describes it as a scratch buffer that is
    reshaped to a sample rate and a channel count, sized to a sample count,
    and filled by a conversion. *)
Record AudioBuffer := {
  buf_format : AudioFormat;
  buf_frames : Z;
  buf_samples : list (list Z)
}.

Definition AudioBuffer_new : AudioBuffer :=
  {| buf_format := {| fmt_sample_rate := 0; fmt_nb_channels := 0 |};
     buf_frames := 0; buf_samples := [] |}.

Definition setFormat (f : AudioFormat) (b : AudioBuffer) : AudioBuffer :=
  {| buf_format := f; buf_frames := buf_frames b;
     buf_samples := buf_samples b |}.

Definition resize (n : Z) (b : AudioBuffer) : AudioBuffer :=
  {| buf_format := buf_format b; buf_frames := n;
     buf_samples := buf_samples b |}.

Definition fill (s : list (list Z)) (b : AudioBuffer) : AudioBuffer :=
  {| buf_format := buf_format b; buf_frames := buf_frames b;
     buf_samples := s |}.

(** Modelled from the spec: [Resampler] (audio/resampler.h) is not part of
    the source file.  A resampler is constructed for ("sized for") a target
    format; [resample], a method of the resampler, reads one buffer and
    writes the samples of the other, whose shape was set by the caller. *)
Record Resampler := { resampler_format : AudioFormat }.

Definition Resampler_new (f : AudioFormat) : Resampler :=
  {| resampler_format := f |}.

Definition resample `{External} (r : Resampler)
    (dataIn dataOut : AudioBuffer) : AudioBuffer :=
  fill (resample_samples (resampler_format r)
          (fmt_sample_rate (buf_format dataIn))
          (fmt_sample_rate (buf_format dataOut)) (buf_samples dataIn))
       dataOut.

(** Modelled from the spec: [RingBuffer] (audio/ringbuffer.h) is not part
    of the source file; it accepts pre-formatted audio buffers, and the
    decoder is a producer only.  The buffers put so far, oldest first. *)
Definition RingBuffer := list AudioBuffer.

Definition put (b : AudioBuffer) (rb : RingBuffer) : RingBuffer := rb ++ [b].

(** Modelled from the spec: the accelerator (video/accel.h) is not part of
    the source file; it exposes "has failed" and "extract decoded data into
    a destination frame". *)
Record HardwareAccel := { hasFailed : bool }.

(** The fields of [AVCodecContext] the decoder reads or writes; [opaque]
    records whether the back-reference points to an accelerator, [is_open]
    whether [avcodec_open2] succeeded since the last [avcodec_close]. *)
Record AVCodecContext := {
  codec : AVCodec;
  thread_count : Z;
  channels : Z;
  ctx_sample_rate : Z;
  sample_fmt : AVSampleFormat;
  width : Z;
  height : Z;
  pix_fmt : Z;
  opaque : bool;
  is_open : bool
}.

Definition set_thread_count (v : Z) (c : AVCodecContext) : AVCodecContext :=
  {| codec := codec c; thread_count := v; channels := channels c;
     ctx_sample_rate := ctx_sample_rate c; sample_fmt := sample_fmt c;
     width := width c; height := height c; pix_fmt := pix_fmt c;
     opaque := opaque c; is_open := is_open c |}.

Definition set_channels (v : Z) (c : AVCodecContext) : AVCodecContext :=
  {| codec := codec c; thread_count := thread_count c; channels := v;
     ctx_sample_rate := ctx_sample_rate c; sample_fmt := sample_fmt c;
     width := width c; height := height c; pix_fmt := pix_fmt c;
     opaque := opaque c; is_open := is_open c |}.

Definition set_ctx_sample_rate (v : Z) (c : AVCodecContext) : AVCodecContext :=
  {| codec := codec c; thread_count := thread_count c; channels := channels c;
     ctx_sample_rate := v; sample_fmt := sample_fmt c;
     width := width c; height := height c; pix_fmt := pix_fmt c;
     opaque := opaque c; is_open := is_open c |}.

Definition set_opaque (v : bool) (c : AVCodecContext) : AVCodecContext :=
  {| codec := codec c; thread_count := thread_count c; channels := channels c;
     ctx_sample_rate := ctx_sample_rate c; sample_fmt := sample_fmt c;
     width := width c; height := height c; pix_fmt := pix_fmt c;
     opaque := v; is_open := is_open c |}.

Definition set_is_open (v : bool) (c : AVCodecContext) : AVCodecContext :=
  {| codec := codec c; thread_count := thread_count c; channels := channels c;
     ctx_sample_rate := ctx_sample_rate c; sample_fmt := sample_fmt c;
     width := width c; height := height c; pix_fmt := pix_fmt c;
     opaque := opaque c; is_open := v |}.

(** The fields of [AVFormatContext] the decoder reads or writes.  Pointers
    ([interrupt_callback], [pb]) are addresses, 0 for null. *)
Record AVFormatContext := {
  streams : list AVStream;
  max_analyze_duration : Z;
  interrupt_callback : Z;
  interrupt_opaque : Z;
  pb : Z
}.

Definition avformat_alloc_context : AVFormatContext :=
  {| streams := []; max_analyze_duration := 0; interrupt_callback := 0;
     interrupt_opaque := 0; pb := 0 |}.

Definition set_streams (v : list AVStream) (c : AVFormatContext) :=
  {| streams := v; max_analyze_duration := max_analyze_duration c;
     interrupt_callback := interrupt_callback c;
     interrupt_opaque := interrupt_opaque c; pb := pb c |}.

Definition set_max_analyze_duration (v : Z) (c : AVFormatContext) :=
  {| streams := streams c; max_analyze_duration := v;
     interrupt_callback := interrupt_callback c;
     interrupt_opaque := interrupt_opaque c; pb := pb c |}.

Definition set_interrupt_callback (v : Z) (c : AVFormatContext) :=
  {| streams := streams c; max_analyze_duration := max_analyze_duration c;
     interrupt_callback := v;
     interrupt_opaque := interrupt_opaque c; pb := pb c |}.

Definition set_interrupt_opaque (v : Z) (c : AVFormatContext) :=
  {| streams := streams c; max_analyze_duration := max_analyze_duration c;
     interrupt_callback := interrupt_callback c;
     interrupt_opaque := v; pb := pb c |}.

Definition set_pb (v : Z) (c : AVFormatContext) :=
  {| streams := streams c; max_analyze_duration := max_analyze_duration c;
     interrupt_callback := interrupt_callback c;
     interrupt_opaque := interrupt_opaque c; pb := v |}.

(** The data members of [MediaDecoder]. *)
Record MediaDecoder := {
  inputDecoder_ : option AVCodec;
  decoderCtx_ : option AVCodecContext;
  inputCtx_ : AVFormatContext;
  avStream_ : option AVStream;
  streamIndex_ : Z;
  emulateRate_ : bool;
  startTime_ : Z;
  decBuff_ : AudioBuffer;
  resamplingBuff_ : AudioBuffer;
  resampler_ : option Resampler;
  options_ : gmap string string;
  enableAccel_ : bool;
  accel_ : option HardwareAccel
}.

(** Member assignment, one function per member the source assigns. *)
Definition set_inputDecoder_ (v : option AVCodec) (d : MediaDecoder) : MediaDecoder :=
  {| inputDecoder_ := v; decoderCtx_ := decoderCtx_ d;
     inputCtx_ := inputCtx_ d; avStream_ := avStream_ d;
     streamIndex_ := streamIndex_ d; emulateRate_ := emulateRate_ d;
     startTime_ := startTime_ d; decBuff_ := decBuff_ d;
     resamplingBuff_ := resamplingBuff_ d; resampler_ := resampler_ d;
     options_ := options_ d; enableAccel_ := enableAccel_ d;
     accel_ := accel_ d |}.

Definition set_decoderCtx_ (v : option AVCodecContext) (d : MediaDecoder) : MediaDecoder :=
  {| inputDecoder_ := inputDecoder_ d; decoderCtx_ := v;
     inputCtx_ := inputCtx_ d; avStream_ := avStream_ d;
     streamIndex_ := streamIndex_ d; emulateRate_ := emulateRate_ d;
     startTime_ := startTime_ d; decBuff_ := decBuff_ d;
     resamplingBuff_ := resamplingBuff_ d; resampler_ := resampler_ d;
     options_ := options_ d; enableAccel_ := enableAccel_ d;
     accel_ := accel_ d |}.

Definition set_inputCtx_ (v : AVFormatContext) (d : MediaDecoder) : MediaDecoder :=
  {| inputDecoder_ := inputDecoder_ d; decoderCtx_ := decoderCtx_ d;
     inputCtx_ := v; avStream_ := avStream_ d;
     streamIndex_ := streamIndex_ d; emulateRate_ := emulateRate_ d;
     startTime_ := startTime_ d; decBuff_ := decBuff_ d;
     resamplingBuff_ := resamplingBuff_ d; resampler_ := resampler_ d;
     options_ := options_ d; enableAccel_ := enableAccel_ d;
     accel_ := accel_ d |}.

Definition set_avStream_ (v : option AVStream) (d : MediaDecoder) : MediaDecoder :=
  {| inputDecoder_ := inputDecoder_ d; decoderCtx_ := decoderCtx_ d;
     inputCtx_ := inputCtx_ d; avStream_ := v;
     streamIndex_ := streamIndex_ d; emulateRate_ := emulateRate_ d;
     startTime_ := startTime_ d; decBuff_ := decBuff_ d;
     resamplingBuff_ := resamplingBuff_ d; resampler_ := resampler_ d;
     options_ := options_ d; enableAccel_ := enableAccel_ d;
     accel_ := accel_ d |}.

Definition set_streamIndex_ (v : Z) (d : MediaDecoder) : MediaDecoder :=
  {| inputDecoder_ := inputDecoder_ d; decoderCtx_ := decoderCtx_ d;
     inputCtx_ := inputCtx_ d; avStream_ := avStream_ d; streamIndex_ := v;
     emulateRate_ := emulateRate_ d; startTime_ := startTime_ d;
     decBuff_ := decBuff_ d; resamplingBuff_ := resamplingBuff_ d;
     resampler_ := resampler_ d; options_ := options_ d;
     enableAccel_ := enableAccel_ d; accel_ := accel_ d |}.

Definition set_startTime_ (v : Z) (d : MediaDecoder) : MediaDecoder :=
  {| inputDecoder_ := inputDecoder_ d; decoderCtx_ := decoderCtx_ d;
     inputCtx_ := inputCtx_ d; avStream_ := avStream_ d;
     streamIndex_ := streamIndex_ d; emulateRate_ := emulateRate_ d;
     startTime_ := v; decBuff_ := decBuff_ d;
     resamplingBuff_ := resamplingBuff_ d; resampler_ := resampler_ d;
     options_ := options_ d; enableAccel_ := enableAccel_ d;
     accel_ := accel_ d |}.

Definition set_decBuff_ (v : AudioBuffer) (d : MediaDecoder) : MediaDecoder :=
  {| inputDecoder_ := inputDecoder_ d; decoderCtx_ := decoderCtx_ d;
     inputCtx_ := inputCtx_ d; avStream_ := avStream_ d;
     streamIndex_ := streamIndex_ d; emulateRate_ := emulateRate_ d;
     startTime_ := startTime_ d; decBuff_ := v;
     resamplingBuff_ := resamplingBuff_ d; resampler_ := resampler_ d;
     options_ := options_ d; enableAccel_ := enableAccel_ d;
     accel_ := accel_ d |}.

Definition set_resamplingBuff_ (v : AudioBuffer) (d : MediaDecoder) : MediaDecoder :=
  {| inputDecoder_ := inputDecoder_ d; decoderCtx_ := decoderCtx_ d;
     inputCtx_ := inputCtx_ d; avStream_ := avStream_ d;
     streamIndex_ := streamIndex_ d; emulateRate_ := emulateRate_ d;
     startTime_ := startTime_ d; decBuff_ := decBuff_ d;
     resamplingBuff_ := v; resampler_ := resampler_ d;
     options_ := options_ d; enableAccel_ := enableAccel_ d;
     accel_ := accel_ d |}.

Definition set_resampler_ (v : option Resampler) (d : MediaDecoder) : MediaDecoder :=
  {| inputDecoder_ := inputDecoder_ d; decoderCtx_ := decoderCtx_ d;
     inputCtx_ := inputCtx_ d; avStream_ := avStream_ d;
     streamIndex_ := streamIndex_ d; emulateRate_ := emulateRate_ d;
     startTime_ := startTime_ d; decBuff_ := decBuff_ d;
     resamplingBuff_ := resamplingBuff_ d; resampler_ := v;
     options_ := options_ d; enableAccel_ := enableAccel_ d;
     accel_ := accel_ d |}.

Definition set_options_ (v : gmap string string) (d : MediaDecoder) : MediaDecoder :=
  {| inputDecoder_ := inputDecoder_ d; decoderCtx_ := decoderCtx_ d;
     inputCtx_ := inputCtx_ d; avStream_ := avStream_ d;
     streamIndex_ := streamIndex_ d; emulateRate_ := emulateRate_ d;
     startTime_ := startTime_ d; decBuff_ := decBuff_ d;
     resamplingBuff_ := resamplingBuff_ d; resampler_ := resampler_ d;
     options_ := v; enableAccel_ := enableAccel_ d; accel_ := accel_ d |}.

Definition set_enableAccel_ (v : bool) (d : MediaDecoder) : MediaDecoder :=
  {| inputDecoder_ := inputDecoder_ d; decoderCtx_ := decoderCtx_ d;
     inputCtx_ := inputCtx_ d; avStream_ := avStream_ d;
     streamIndex_ := streamIndex_ d; emulateRate_ := emulateRate_ d;
     startTime_ := startTime_ d; decBuff_ := decBuff_ d;
     resamplingBuff_ := resamplingBuff_ d; resampler_ := resampler_ d;
     options_ := options_ d; enableAccel_ := v; accel_ := accel_ d |}.

Definition set_accel_ (v : option HardwareAccel) (d : MediaDecoder) : MediaDecoder :=
  {| inputDecoder_ := inputDecoder_ d; decoderCtx_ := decoderCtx_ d;
     inputCtx_ := inputCtx_ d; avStream_ := avStream_ d;
     streamIndex_ := streamIndex_ d; emulateRate_ := emulateRate_ d;
     startTime_ := startTime_ d; decBuff_ := decBuff_ d;
     resamplingBuff_ := resamplingBuff_ d; resampler_ := resampler_ d;
     options_ := options_ d; enableAccel_ := enableAccel_ d;
     accel_ := v |}.

(** ** Effects

    The calls out of the decoder that the properties below speak about. *)
Inductive Event :=
| EvOpenInput (input fmt : string) (options : gmap string string)
| EvCodecClose
| EvPacketUnref (p : AVPacket)
| EvExtractData (frame : AVFrame)
| EvSleep (us : Z)
| EvResamplerNew (f : AudioFormat).

(** The answers of libav and of the collaborators during one operation.
    A result code comes with what the call left behind: the options the
    demuxer did not consume and its stream table, the frame written by the
    codec, and whether the accelerator, whose callbacks run inside the
    codec, counts as failed afterwards. *)
Record Env := {
  getDecodingAccelerated : bool;
  avformat_open_input : Z * gmap string string * list AVStream;
  avformat_find_stream_info : Z * list AVStream;
  avcodec_find_decoder : Z → option AVCodec;
  video_findDecoder : Z → option AVCodec;
  avcodec_alloc_context3 : AVCodec → AVCodecParameters → AVCodecContext;
  hardware_concurrency : Z;
  makeHardwareAccel : option HardwareAccel;
  av_gettime : Z;
  avcodec_open2 : Z;
  av_read_frame : Z * AVPacket;
  avcodec_send_packet : Z * bool;
  avcodec_receive_frame : Z * AVFrame * bool;
  extractData : AVFrame → AVFrame * bool
}.

(** A member function reads and updates the decoder, appends to the trace,
    and has no result where the source dereferences a null member or
    indexes the stream table out of range. *)
Definition M (A : Type) : Type :=
  MediaDecoder → option (A * MediaDecoder * list Event).

#[global] Instance M_ret : MRet M := λ A x d, Some (x, d, []).

#[global] Instance M_bind : MBind M := λ A B k m d,
  match m d with
  | Some (x, d', t) =>
      match k x d' with
      | Some (y, d'', t') => Some (y, d'', t ++ t')
      | None => None
      end
  | None => None
  end.

Definition this : M MediaDecoder := λ d, Some (d, d, []).
Definition assign (f : MediaDecoder → MediaDecoder) : M unit :=
  λ d, Some ((), f d, []).
Definition emit (e : Event) : M unit := λ d, Some ((), d, [e]).
Definition undefined {A} : M A := λ _, None.

Definition deref {A} (p : option A) : M A :=
  match p with Some x => mret x | None => undefined end.

Definition when (b : bool) (m : M unit) : M unit := if b then m else mret ().

(** Projections of the result of running a member function. *)
Definition result_of {A} (r : option (A * MediaDecoder * list Event)) : option A :=
  match r with Some (x, _, _) => Some x | None => None end.
Definition decoder_of {A} (r : option (A * MediaDecoder * list Event)) : option MediaDecoder :=
  match r with Some (_, d, _) => Some d | None => None end.
Definition trace_of {A} (r : option (A * MediaDecoder * list Event)) : list Event :=
  match r with Some (_, _, t) => t | None => [] end.

(** ** Construction

    The constructor of the source file allocates the input context and
    sets [startTime_]; the other members get the initialisers of the class
    declaration, which is in media_decoder.h.  Modelled from the spec: the
    selected stream index is the sentinel -1 until a stream is found, and
    the pointers are null.  The two flags, set through the header's
    [emulateRate()] and [enableAccel], are arguments. *)
Definition MediaDecoder_new (emulateRate enableAccel : bool) : MediaDecoder :=
  {| inputDecoder_ := None; decoderCtx_ := None;
     inputCtx_ := avformat_alloc_context; avStream_ := None;
     streamIndex_ := -1; emulateRate_ := emulateRate;
     startTime_ := AV_NOPTS_VALUE; decBuff_ := AudioBuffer_new;
     resamplingBuff_ := AudioBuffer_new; resampler_ := None;
     options_ := ∅; enableAccel_ := enableAccel; accel_ := None |}.

(** ** MediaDecoder::openInput *)

(** maximum number of packets the jitter buffer can queue *)
Definition jitterBufferMaxSize_ : N := 1500.
(** maximum time a packet can be queued, in milliseconds *)
Definition jitterBufferMaxDelay_ : Z := 50.

(** [av_dict_set(&options_, key, value, 0)] with a non-null value. *)
Definition av_dict_set (key value : string) : M unit :=
  assign (λ d, set_options_ (<[key := value]> (options_ d)) d).

Section OpenInput.
Context `{External}.

(** [DeviceParams] (media_device.h): the members [openInput] reads. *)
Record DeviceParams := {
  input : string;
  dev_format : string;
  dev_width : N;
  dev_height : N;
  framerate : rational_double;
  pixel_format : string;
  channel : N;
  loop : string;
  sdp_flags : string;
  offset_x : N;
  offset_y : N
}.

Definition nonzero (n : N) : bool := negb (n =? 0)%N.

(** On success the demuxer's stream table becomes that of [inputCtx_];
    [options_] is left holding the options the demuxer did not consume. *)
Definition openInput (env : Env) (params : DeviceParams) : M Z :=
  when (nonzero (dev_width params) && nonzero (dev_height params))
    (av_dict_set "video_size"
       (pretty (dev_width params) +:+ "x" +:+ pretty (dev_height params)));;
  when (rational_bool (framerate params))
    (av_dict_set "framerate" (rational_real_to_string (framerate params)));;
  when (nonzero (offset_x params) || nonzero (offset_y params))
    (av_dict_set "offset_x" (pretty (offset_x params));;
     av_dict_set "offset_y" (pretty (offset_y params)));;
  when (nonzero (channel params))
    (av_dict_set "channel" (pretty (channel params)));;
  av_dict_set "loop" (loop params);;
  av_dict_set "sdp_flags" (sdp_flags params);;
  av_dict_set "reorder_queue_size" (pretty jitterBufferMaxSize_);;
  let us := jitterBufferMaxDelay_ * 1000 in
  av_dict_set "max_delay" (pretty us);;
  when (negb (String.eqb (pixel_format params) ""))
    (av_dict_set "pixel_format" (pixel_format params));;
  assign (λ d, set_enableAccel_
                 (enableAccel_ d && getDecodingAccelerated env) d);;
  d ← this;
  emit (EvOpenInput (input params) (dev_format params) (options_ d));;
  let '(ret, unused, tbl) := avformat_open_input env in
  assign (set_options_ unused);;
  when (ret =? 0) (assign (λ d, set_inputCtx_ (set_streams tbl (inputCtx_ d)) d));;
  mret ret.

End OpenInput.

(** The option sets handed to [avformat_open_input], in call order. *)
Definition opened_with (t : list Event) : list (gmap string string) :=
  omap (λ e, match e with EvOpenInput _ _ o => Some o | _ => None end) t.

(** A guarded [av_dict_set], as a function on the dictionary. *)
Definition dict_set_if (b : bool) (key value : string)
    (o : gmap string string) : gmap string string :=
  if b then <[key := value]> o else o.

(** ** MediaDecoder::setInterruptCallback and MediaDecoder::setIOContext *)

Definition assign_inputCtx (f : AVFormatContext → AVFormatContext) : M unit :=
  assign (λ d, set_inputCtx_ (f (inputCtx_ d)) d).

Definition assign_decoderCtx (f : AVCodecContext → AVCodecContext) : M unit :=
  assign (λ d, set_decoderCtx_ (f <$> decoderCtx_ d) d).

Definition setInterruptCallback (cb cb_opaque : Z) : M unit :=
  if negb (cb =? 0) then
    assign_inputCtx (set_interrupt_callback cb);;
    assign_inputCtx (set_interrupt_opaque cb_opaque)
  else
    assign_inputCtx (set_interrupt_callback 0).

Definition setIOContext (ioctx_context : Z) : M unit :=
  assign_inputCtx (set_pb ioctx_context).

(** ** MediaDecoder::setupFromAudioData and MediaDecoder::setupFromVideoData *)

(** time in seconds *)
Definition MAX_ANALYZE_DURATION : Z := 30.

(** [if (decoderCtx_) avcodec_close(decoderCtx_);] *)
Definition close_decoderCtx : M unit :=
  d ← this;
  match decoderCtx_ d with
  | Some _ => emit EvCodecClose;; assign_decoderCtx (set_is_open false)
  | None => mret ()
  end.

(** The scan
    [for (size_t i = 0; streamIndex_ == -1 && i < nb_streams; ++i)
       if (streams[i]->codecpar->codec_type == kind) streamIndex_ = i;]
    from position [i] of the table, [rest] being the streams from [i] on. *)
Fixpoint scan_streams (kind : AVMediaType) (rest : list AVStream) (i : nat)
    (streamIndex : Z) : Z :=
  match rest with
  | [] => streamIndex
  | s :: rest' =>
      if streamIndex =? -1 then
        scan_streams kind rest' (S i)
          (if decide (codec_type (codecpar s) = kind)
           then to_int (Z.of_nat i) else streamIndex)
      else streamIndex
  end.

Definition find_stream (kind : AVMediaType) : M unit :=
  assign (λ d, set_streamIndex_
                 (scan_streams kind (streams (inputCtx_ d)) 0 (streamIndex_ d))
                 d).

(** [inputCtx_->streams[streamIndex_]] *)
Definition selected_stream : M AVStream :=
  d ← this;
  if streamIndex_ d <? 0 then undefined
  else deref (streams (inputCtx_ d) !! Z.to_nat (streamIndex_ d)).

(** [std::max(1u, std::min(8u, std::thread::hardware_concurrency()/2))] *)
Definition decode_threads (env : Env) : Z :=
  Z.max 1 (Z.min 8 (hardware_concurrency env / 2)).

Definition setupFromAudioData (env : Env) (format : AudioFormat) : M Z :=
  close_decoderCtx;;
  assign_inputCtx (set_max_analyze_duration (MAX_ANALYZE_DURATION * AV_TIME_BASE));;
  let '(ret, tbl) := avformat_find_stream_info env in
  assign_inputCtx (set_streams tbl);;
  if ret <? 0 then mret (-1)
  else
    find_stream AVMEDIA_TYPE_AUDIO;;
    d ← this;
    if streamIndex_ d =? -1 then mret (-1)
    else
      st ← selected_stream;
      assign (set_avStream_ (Some st));;
      assign (set_inputDecoder_ (avcodec_find_decoder env (codec_id (codecpar st))));;
      match avcodec_find_decoder env (codec_id (codecpar st)) with
      | None => mret (-1)
      | Some dec =>
          assign (set_decoderCtx_
                    (Some (avcodec_alloc_context3 env dec (codecpar st))));;
          assign_decoderCtx (set_thread_count (decode_threads env));;
          assign_decoderCtx (set_channels (to_int (fmt_nb_channels format)));;
          assign_decoderCtx (set_ctx_sample_rate (to_int (fmt_sample_rate format)));;
          d ← this;
          when (emulateRate_ d) (assign (set_startTime_ (av_gettime env)));;
          let ret := avcodec_open2 env in
          if negb (ret =? 0) then mret (-1)
          else assign_decoderCtx (set_is_open true);; mret 0
      end.

Definition setupFromVideoData (env : Env) : M Z :=
  close_decoderCtx;;
  assign_inputCtx (set_max_analyze_duration (MAX_ANALYZE_DURATION * AV_TIME_BASE));;
  let '(ret, tbl) := avformat_find_stream_info env in
  assign_inputCtx (set_streams tbl);;
  if ret <? 0 then mret (-1)
  else
    find_stream AVMEDIA_TYPE_VIDEO;;
    d ← this;
    if streamIndex_ d =? -1 then mret (-1)
    else
      st ← selected_stream;
      assign (set_avStream_ (Some st));;
      assign (set_inputDecoder_ (video_findDecoder env (codec_id (codecpar st))));;
      match video_findDecoder env (codec_id (codecpar st)) with
      | None => mret (-1)
      | Some dec =>
          assign (set_decoderCtx_
                    (Some (avcodec_alloc_context3 env dec (codecpar st))));;
          assign_decoderCtx (set_thread_count (decode_threads env));;
          d ← this;
          when (enableAccel_ d)
            (assign (set_accel_ (makeHardwareAccel env));;
             assign_decoderCtx
               (set_opaque (bool_decide (is_Some (makeHardwareAccel env)))));;
          d ← this;
          when (emulateRate_ d) (assign (set_startTime_ (av_gettime env)));;
          let ret := avcodec_open2 env in
          if negb (ret =? 0) then mret (-1)
          else assign_decoderCtx (set_is_open true);; mret 0
      end.

(** ** MediaDecoder::decode, MediaDecoder::flush, MediaDecoder::enableAccel *)

(** [accel_ && accel_->hasFailed()] *)
Definition accel_failed (d : MediaDecoder) : bool :=
  match accel_ d with
  | Some a => hasFailed a
  | None => false
  end.

(** The state the accelerator is left in by a call that runs its
    callbacks. *)
Definition accel_after (failed : bool) : M unit :=
  assign (λ d, set_accel_ ((λ _, {| hasFailed := failed |}) <$> accel_ d) d).

(** [av_init_packet(&inpacket)] *)
Definition av_init_packet : AVPacket :=
  {| stream_index := 0; packet_data := [] |}.

Section Decode.
Context `{External}.

(** [MediaDecoder::getTimeBase] *)
Definition getTimeBase : M AVRational :=
  d ← this;
  st ← deref (avStream_ d);
  mret {| num := to_unsigned (num (time_base st));
          den := to_unsigned (den (time_base st)) |}.

(** The rate emulator: the block guarded by
    [emulateRate_ and frame->pts != AV_NOPTS_VALUE]. *)
Definition emulate_rate (env : Env) (frame : AVFrame) : M unit :=
  d ← this;
  if emulateRate_ d && negb (pts frame =? AV_NOPTS_VALUE) then
    tb ← getTimeBase;
    st ← deref (avStream_ d);
    let target := startTime_ d + frame_time_us tb (pts frame) (start_time st) in
    let now := av_gettime env in
    when (target >? now) (emit (EvSleep (target - now)))
  else mret ().

(** [MediaDecoder::correctPixFmt] *)
Definition correctPixFmt (input_pix_fmt : Z) : Z :=
  if input_pix_fmt =? AV_PIX_FMT_YUVJ420P then AV_PIX_FMT_YUV420P
  else if input_pix_fmt =? AV_PIX_FMT_YUVJ422P then AV_PIX_FMT_YUV422P
  else if input_pix_fmt =? AV_PIX_FMT_YUVJ444P then AV_PIX_FMT_YUV444P
  else if input_pix_fmt =? AV_PIX_FMT_YUVJ440P then AV_PIX_FMT_YUV440P
  else input_pix_fmt.

(** A negative result of [avcodec_receive_frame] other than "would block"
    and end of stream. *)
Definition receive_error (ret : Z) : bool :=
  (ret <? 0) && negb (ret =? AVERROR EAGAIN) && negb (ret =? AVERROR_EOF).

(** [MediaDecoder::decode(VideoFrame&)]: the status and the caller's
    frame after the call. *)
Definition decode_video (env : Env) (result : AVFrame) : M (Status * AVFrame) :=
  let ret := (av_read_frame env).1 in
  let inpacket := (av_read_frame env).2 in
  if ret =? AVERROR EAGAIN then mret (Success, result)
  else if ret =? AVERROR_EOF then mret (EOFError, result)
  else if ret <? 0 then mret (ReadError, result)
  else
    d ← this;
    if negb (stream_index inpacket =? streamIndex_ d) then
      emit (EvPacketUnref inpacket);;
      mret (Success, result)
    else
      let ret := (avcodec_send_packet env).1 in
      accel_after (avcodec_send_packet env).2;;
      d ← this;
      if ret <? 0 then
        if accel_failed d then mret (RestartRequired, result)
        else mret (if ret =? AVERROR_EOF then Success else DecodeError, result)
      else
        let ret := (avcodec_receive_frame env).1.1 in
        let frame := (avcodec_receive_frame env).1.2 in
        accel_after (avcodec_receive_frame env).2;;
        d ← this;
        if receive_error ret then
          if accel_failed d then mret (RestartRequired, frame)
          else mret (DecodeError, frame)
        else
          let frameFinished := 0 <=? ret in
          emit (EvPacketUnref inpacket);;
          if frameFinished then
            let frame := set_format (correctPixFmt (format frame)) frame in
            let finish (frame : AVFrame) : M (Status * AVFrame) :=
              emulate_rate env frame;;
              mret (FrameFinished, frame) in
            match accel_ d with
            | Some a =>
                if negb (hasFailed a) then
                  emit (EvExtractData frame);;
                  accel_after (extractData env frame).2;;
                  finish (extractData env frame).1
                else mret (RestartRequired, frame)
            | None => finish frame
            end
          else mret (Success, frame).

(** [MediaDecoder::decode(const AudioFrame&)] *)
Definition decode_audio (env : Env) (decodedFrame : AVFrame) : M (Status * AVFrame) :=
  let ret := (av_read_frame env).1 in
  let inpacket := (av_read_frame env).2 in
  if ret =? AVERROR EAGAIN then mret (Success, decodedFrame)
  else if ret =? AVERROR_EOF then mret (EOFError, decodedFrame)
  else if ret <? 0 then mret (ReadError, decodedFrame)
  else
    d ← this;
    if negb (stream_index inpacket =? streamIndex_ d) then
      emit (EvPacketUnref inpacket);;
      mret (Success, decodedFrame)
    else
      let ret := (avcodec_send_packet env).1 in
      accel_after (avcodec_send_packet env).2;;
      if ret <? 0 then
        mret (if ret =? AVERROR_EOF then Success else DecodeError, decodedFrame)
      else
        let ret := (avcodec_receive_frame env).1.1 in
        let frame := (avcodec_receive_frame env).1.2 in
        accel_after (avcodec_receive_frame env).2;;
        if receive_error ret then mret (DecodeError, frame)
        else
          let frameFinished := 0 <=? ret in
          if frameFinished then
            emit (EvPacketUnref inpacket);;
            emulate_rate env frame;;
            mret (FrameFinished, frame)
          else mret (Success, frame).

(** [MediaDecoder::enableAccel] *)
Definition enableAccel (enable : bool) : M unit :=
  assign (set_enableAccel_ enable);;
  when (negb enable)
    (assign (set_accel_ None);;
     assign_decoderCtx (set_opaque false)).

(** [MediaDecoder::flush] *)
Definition flush (env : Env) (result : AVFrame) : M (Status * AVFrame) :=
  let inpacket := av_init_packet in
  let ret := (avcodec_send_packet env).1 in
  accel_after (avcodec_send_packet env).2;;
  if ret <? 0 then
    mret (if ret =? AVERROR_EOF then Success else DecodeError, result)
  else
    let ret := (avcodec_receive_frame env).1.1 in
    let frame := (avcodec_receive_frame env).1.2 in
    accel_after (avcodec_receive_frame env).2;;
    if receive_error ret then mret (DecodeError, frame)
    else
      let frameFinished := 0 <=? ret in
      if frameFinished then
        emit (EvPacketUnref inpacket);;
        d ← this;
        match accel_ d with
        | Some a =>
            if negb (hasFailed a) then
              emit (EvExtractData frame);;
              accel_after (extractData env frame).2;;
              mret (FrameFinished, (extractData env frame).1)
            else mret (FrameFinished, frame)
        | None => mret (FrameFinished, frame)
        end
      else mret (Success, frame).

(** ** MediaDecoder::writeToRingBuffer *)

Definition assign_decBuff (f : AudioBuffer → AudioBuffer) : M unit :=
  assign (λ d, set_decBuff_ (f (decBuff_ d)) d).

Definition assign_resamplingBuff (f : AudioBuffer → AudioBuffer) : M unit :=
  assign (λ d, set_resamplingBuff_ (f (resamplingBuff_ d)) d).

Definition writeToRingBuffer (decodedFrame : AVFrame) (rb : RingBuffer)
    (outFormat : AudioFormat) : M RingBuffer :=
  let libav_frame := decodedFrame in
  d ← this;
  ctx ← deref (decoderCtx_ d);
  assign_decBuff
    (setFormat {| fmt_sample_rate := to_unsigned (sample_rate libav_frame);
                  fmt_nb_channels := to_unsigned (channels ctx) |});;
  assign_decBuff (resize (nb_samples libav_frame));;
  (if decide (sample_fmt ctx = AV_SAMPLE_FMT_FLTP) then
     assign_decBuff
       (fill (convertFloatPlanarToSigned16 (frame_data libav_frame)
                (nb_samples libav_frame) (channels ctx)))
   else if decide (sample_fmt ctx = AV_SAMPLE_FMT_S16) then
     assign_decBuff
       (fill (deinterleave (frame_data libav_frame)
                (nb_samples libav_frame) (channels ctx)))
   else mret ());;
  if negb (to_unsigned (sample_rate libav_frame) =? fmt_sample_rate outFormat)
  then
    d ← this;
    when (bool_decide (resampler_ d = None))
      (emit (EvResamplerNew outFormat);;
       assign (set_resampler_ (Some (Resampler_new outFormat))));;
    assign_resamplingBuff
      (setFormat {| fmt_sample_rate := fmt_sample_rate outFormat;
                    fmt_nb_channels := to_unsigned (channels ctx) |});;
    assign_resamplingBuff (resize (nb_samples libav_frame));;
    d ← this;
    r ← deref (resampler_ d);
    assign_resamplingBuff (resample r (decBuff_ d));;
    d ← this;
    mret (put (resamplingBuff_ d) rb)
  else
    d ← this;
    mret (put (decBuff_ d) rb).

End Decode.

(** ** Predicates used in the statements *)

(** The position of the first stream of a kind in a stream table. *)
Definition first_of_kind (kind : AVMediaType) (tbl : list AVStream)
    : option nat :=
  fst <$> list_find (λ s, codec_type (codecpar s) = kind) tbl.

(** The stream selection and the rate-emulation origin are the same in two
    decoder states. *)
Definition kept (d d' : MediaDecoder) : Prop :=
  streamIndex_ d' = streamIndex_ d ∧ startTime_ d' = startTime_ d ∧
  emulateRate_ d' = emulateRate_ d.

(** A member function that leaves them alone whenever it returns. *)
Definition preserves {A} (m : M A) : Prop :=
  ∀ d r d' t, m d = Some (r, d', t) → kept d d'.

(** ** The decoder as a state machine

    The member functions of the source file that are not [const], as
    operations a caller can issue in any order, each with the answers of
    the environment during the call. *)

Section Machine.
Context `{External}.

Inductive Op :=
| OpenInput (params : DeviceParams)
| SetInterruptCallback (cb cb_opaque : Z)
| SetIOContext (ioctx_context : Z)
| SetupFromAudioData (format : AudioFormat)
| SetupFromVideoData
| DecodeVideo (result : AVFrame)
| DecodeAudio (decodedFrame : AVFrame)
| EnableAccel (enable : bool)
| Flush (result : AVFrame)
| WriteToRingBuffer (decodedFrame : AVFrame) (rb : RingBuffer)
    (outFormat : AudioFormat).

Definition step (env : Env) (op : Op) : M unit :=
  match op with
  | OpenInput params => openInput env params;; mret ()
  | SetInterruptCallback cb cb_opaque => setInterruptCallback cb cb_opaque
  | SetIOContext ioctx_context => setIOContext ioctx_context
  | SetupFromAudioData format => setupFromAudioData env format;; mret ()
  | SetupFromVideoData => setupFromVideoData env;; mret ()
  | DecodeVideo result => decode_video env result;; mret ()
  | DecodeAudio decodedFrame => decode_audio env decodedFrame;; mret ()
  | EnableAccel enable => enableAccel enable
  | Flush result => flush env result;; mret ()
  | WriteToRingBuffer decodedFrame rb outFormat =>
      writeToRingBuffer decodedFrame rb outFormat;; mret ()
  end.

Fixpoint run (ops : list (Env * Op)) : M unit :=
  match ops with
  | [] => mret ()
  | (env, op) :: ops' => step env op;; run ops'
  end.

(** Repeated calls of [writeToRingBuffer] on one ring buffer: each call
    is a decoded frame and the output format asked for. *)
Fixpoint writeAll (calls : list (AVFrame * AudioFormat)) (rb : RingBuffer)
    : M RingBuffer :=
  match calls with
  | [] => mret rb
  | (frame, outFormat) :: calls' =>
      rb' ← writeToRingBuffer frame rb outFormat;
      writeAll calls' rb'
  end.

(** The media kind an operation asks a stream of, if it selects one. *)
Definition requested_kind (op : Op) : option AVMediaType :=
  match op with
  | SetupFromAudioData _ => Some AVMEDIA_TYPE_AUDIO
  | SetupFromVideoData => Some AVMEDIA_TYPE_VIDEO
  | _ => None
  end.

(** Whether the frame's sample rate differs from the rate asked for: the
    test [(unsigned)libav_frame->sample_rate != outFormat.sample_rate]. *)
Definition rates_differ (call : AVFrame * AudioFormat) : bool :=
  negb (to_unsigned (sample_rate call.1) =? fmt_sample_rate call.2).

(** The constructions of a resampler expected from a series of calls
    on a decoder that has none: one, for the output format of the first
    call whose rates differ. *)
Definition expected_constructions (calls : list (AVFrame * AudioFormat))
    : list Event :=
  match filter (λ call, rates_differ call = true) calls with
  | [] => []
  | (_, outFormat) :: _ => [EvResamplerNew outFormat]
  end.

(** The samples of the conversion buffer after a call: those the
    conversion for the sample format of the decoding context takes from
    the frame; with any other sample format nothing is converted and the
    buffer keeps the samples it had. *)
Definition expected_conversion (ctx : AVCodecContext) (frame : AVFrame)
    (before : list (list Z)) : list (list Z) :=
  if decide (sample_fmt ctx = AV_SAMPLE_FMT_FLTP) then
    convertFloatPlanarToSigned16 (frame_data frame) (nb_samples frame)
      (channels ctx)
  else if decide (sample_fmt ctx = AV_SAMPLE_FMT_S16) then
    deinterleave (frame_data frame) (nb_samples frame) (channels ctx)
  else before.

(** The resampler expected after a series of calls: the one already
    held, else the one constructed for the output format of the first call
    whose rates differ. *)
Definition expected_resampler (held : option Resampler)
    (calls : list (AVFrame * AudioFormat)) : option Resampler :=
  match held with
  | Some r => Some r
  | None =>
      match filter (λ call, rates_differ call = true) calls with
      | [] => None
      | (_, outFormat) :: _ => Some (Resampler_new outFormat)
      end
  end.

(** The buffer a call is expected to put on a decoder whose conversion
    buffer held [before] and whose resampler over the series is [held]:
    shaped to the rate asked for and the channel count of the decoding
    context, sized to the frame, holding the converted samples, passed
    through the held resampler when the rates differ. *)
Definition expected_put (ctx : AVCodecContext) (held : option Resampler)
    (before : list (list Z)) (call : AVFrame * AudioFormat)
    (b : AudioBuffer) : Prop :=
  buf_format b
    = {| fmt_sample_rate := fmt_sample_rate call.2;
         fmt_nb_channels := to_unsigned (channels ctx) |} ∧
  buf_frames b = nb_samples call.1 ∧
  if rates_differ call
  then ∃ r, held = Some r ∧
            buf_samples b
              = resample_samples (resampler_format r)
                  (to_unsigned (sample_rate call.1))
                  (fmt_sample_rate call.2)
                  (expected_conversion ctx call.1 before)
  else buf_samples b = expected_conversion ctx call.1 before.

End Machine.

(** ** Concrete environments, used to run the model *)

Module Fixture.

Definition blank_frame : AVFrame :=
  {| format := 0; pts := 0; sample_rate := 0; nb_samples := 0;
     frame_data := [] |}.

Definition decoded_frame : AVFrame :=
  {| format := 12; pts := 40; sample_rate := 48000; nb_samples := 960;
     frame_data := [1; 2; 3] |}.

Definition some_codec : AVCodec :=
  {| codec_name := "h264"; codec_long_name := "H.264" |}.

Definition some_context (dec : AVCodec) (par : AVCodecParameters)
    : AVCodecContext :=
  {| codec := dec; thread_count := 1; channels := 2;
     ctx_sample_rate := 48000; sample_fmt := AV_SAMPLE_FMT_S16;
     width := 640; height := 480; pix_fmt := 0; opaque := false;
     is_open := false |}.

Definition stream_of (kind : AVMediaType) : AVStream :=
  {| codecpar := {| codec_type := kind; codec_id := 27 |};
     start_time := 0;
     time_base := {| num := 1; den := 1000 |};
     avg_frame_rate := {| num := 25; den := 1 |} |}.

(** An environment in which every library call succeeds, parameterised by
    what the demuxer and the codec answer. *)
Definition env_with (tbl : list AVStream) (now : Z) (packet_stream : Z)
    (send : Z * bool) (receive : Z * bool) : Env :=
  {| getDecodingAccelerated := true;
     avformat_open_input := (0, ∅, tbl);
     avformat_find_stream_info := (0, tbl);
     avcodec_find_decoder := λ _, Some some_codec;
     video_findDecoder := λ _, Some some_codec;
     avcodec_alloc_context3 := some_context;
     hardware_concurrency := 8;
     makeHardwareAccel := Some {| hasFailed := false |};
     av_gettime := now;
     avcodec_open2 := 0;
     av_read_frame := (0, {| stream_index := packet_stream;
                             packet_data := [7; 8; 9] |});
     avcodec_send_packet := send;
     avcodec_receive_frame := (receive.1, decoded_frame, receive.2);
     extractData := λ f, (f, false) |}.

(** A decoder whose stream 0 is selected and opened, with or without an
    accelerator attached. *)
Definition ready (accel : option HardwareAccel) : MediaDecoder :=
  {| inputDecoder_ := Some some_codec;
     decoderCtx_ := Some (set_is_open true
                            (some_context some_codec
                               (codecpar (stream_of AVMEDIA_TYPE_VIDEO))));
     inputCtx_ := set_streams [stream_of AVMEDIA_TYPE_VIDEO]
                    avformat_alloc_context;
     avStream_ := Some (stream_of AVMEDIA_TYPE_VIDEO);
     streamIndex_ := 0; emulateRate_ := false;
     startTime_ := AV_NOPTS_VALUE; decBuff_ := AudioBuffer_new;
     resamplingBuff_ := AudioBuffer_new; resampler_ := None;
     options_ := ∅; enableAccel_ := true; accel_ := accel |}.

Definition failed_accel : option HardwareAccel :=
  Some {| hasFailed := true |}.

(** The codec accepts the packet and has no frame ready yet; the
    accelerator counts as failed throughout. *)
Definition env_would_block : Env :=
  env_with [] 0 0 (0, true) (AVERROR EAGAIN, true).

(** The codec accepts the packet and has no frame ready yet. *)
Definition env_no_frame : Env :=
  env_with [] 0 0 (0, false) (AVERROR EAGAIN, false).

(** [AVERROR(EINVAL)] from the submission, resp. from the retrieval. *)
Definition env_send_error : Env :=
  env_with [] 0 0 (AVERROR 22, false) (0, false).
Definition env_receive_error : Env :=
  env_with [] 0 0 (0, false) (AVERROR 22, false).

(** A frame comes out; the accelerator counts as failed afterwards, resp.
    is fine. *)
Definition env_frame_accel_failed : Env :=
  env_with [] 0 0 (0, false) (0, true).
Definition env_frame : Env :=
  env_with [] 0 0 (0, false) (0, false).

(** A packet of stream 1 while stream 0 is selected. *)
Definition env_other_stream : Env :=
  env_with [] 0 1 (0, false) (0, false).

(** A source with one video stream and no audio stream, probed when the
    clock reads 100, resp. 200. *)
Definition env_video_only_100 : Env :=
  env_with [stream_of AVMEDIA_TYPE_VIDEO] 100 0 (0, false) (0, false).
Definition env_video_only_200 : Env :=
  env_with [stream_of AVMEDIA_TYPE_VIDEO] 200 0 (0, false) (0, false).

Definition cd_quality : AudioFormat :=
  {| fmt_sample_rate := 44100; fmt_nb_channels := 2 |}.

Definition wideband : AudioFormat :=
  {| fmt_sample_rate := 16000; fmt_nb_channels := 1 |}.

(** The decoding context of [ready]. *)
Definition ready_context : AVCodecContext :=
  set_is_open true
    (some_context some_codec (codecpar (stream_of AVMEDIA_TYPE_VIDEO))).

(** A video setup followed by an audio setup on the same decoder. *)
Definition video_then_audio_setup : M Z :=
  setupFromVideoData env_video_only_100;;
  setupFromAudioData env_video_only_200 cd_quality.

(** Two video setups on the same decoder, at clock 100 and at clock 200. *)
Definition video_setup_twice : M Z :=
  setupFromVideoData env_video_only_100;;
  setupFromVideoData env_video_only_200.

End Fixture.

(** ** Accessors and trace projections *)

(** [MediaDecoder::getWidth], [getHeight], [getDecoderName], [getFps] and
    [getPixelFormat]: reads through [decoderCtx_], resp. [avStream_].  The
    two [double]s of [getFps] are the two integers of the frame rate;
    [libav_utils::ring_pixel_format] is an argument. *)
Definition getWidth : M Z :=
  d ← this; ctx ← deref (decoderCtx_ d); mret (width ctx).

Definition getHeight : M Z :=
  d ← this; ctx ← deref (decoderCtx_ d); mret (height ctx).

Definition getDecoderName : M string :=
  d ← this; ctx ← deref (decoderCtx_ d); mret (codec_name (codec ctx)).

Definition getFps : M AVRational :=
  d ← this; st ← deref (avStream_ d); mret (avg_frame_rate st).

Definition getPixelFormat (ring_pixel_format : Z → Z) : M Z :=
  d ← this; ctx ← deref (decoderCtx_ d);
  mret (ring_pixel_format (pix_fmt ctx)).

(** The packets released, the sleeps and the extractions of a trace. *)
Definition unrefs (t : list Event) : list AVPacket :=
  omap (λ e, match e with EvPacketUnref p => Some p | _ => None end) t.

Definition sleeps (t : list Event) : list Z :=
  omap (λ e, match e with EvSleep us => Some us | _ => None end) t.

Definition extractions (t : list Event) : list AVFrame :=
  omap (λ e, match e with EvExtractData f => Some f | _ => None end) t.

(** The keys [openInput] writes. *)
Definition openInput_keys : list string :=
  ["video_size"; "framerate"; "offset_x"; "offset_y"; "channel"; "loop";
   "sdp_flags"; "reorder_queue_size"; "max_delay"; "pixel_format"].

(** What a setup call that fails before a decoder is found leaves: the
    earlier decoding context, closed, and the earlier selection. *)
Definition failed_setup_state (d d' : MediaDecoder) : Prop :=
  decoderCtx_ d' = set_is_open false <$> decoderCtx_ d ∧
  streamIndex_ d' = streamIndex_ d ∧ avStream_ d' = avStream_ d ∧
  inputDecoder_ d' = inputDecoder_ d ∧ accel_ d' = accel_ d ∧
  startTime_ d' = startTime_ d.

(** ** Further concrete environments *)

Module Scenario.
Import Fixture.

Definition with_read (r : Z * AVPacket) (e : Env) : Env :=
  {| getDecodingAccelerated := getDecodingAccelerated e;
     avformat_open_input := avformat_open_input e;
     avformat_find_stream_info := avformat_find_stream_info e;
     avcodec_find_decoder := avcodec_find_decoder e;
     video_findDecoder := video_findDecoder e;
     avcodec_alloc_context3 := avcodec_alloc_context3 e;
     hardware_concurrency := hardware_concurrency e;
     makeHardwareAccel := makeHardwareAccel e;
     av_gettime := av_gettime e;
     avcodec_open2 := avcodec_open2 e;
     av_read_frame := r;
     avcodec_send_packet := avcodec_send_packet e;
     avcodec_receive_frame := avcodec_receive_frame e;
     extractData := extractData e |}.

Definition with_probe (r : Z * list AVStream) (e : Env) : Env :=
  {| getDecodingAccelerated := getDecodingAccelerated e;
     avformat_open_input := avformat_open_input e;
     avformat_find_stream_info := r;
     avcodec_find_decoder := avcodec_find_decoder e;
     video_findDecoder := video_findDecoder e;
     avcodec_alloc_context3 := avcodec_alloc_context3 e;
     hardware_concurrency := hardware_concurrency e;
     makeHardwareAccel := makeHardwareAccel e;
     av_gettime := av_gettime e;
     avcodec_open2 := avcodec_open2 e;
     av_read_frame := av_read_frame e;
     avcodec_send_packet := avcodec_send_packet e;
     avcodec_receive_frame := avcodec_receive_frame e;
     extractData := extractData e |}.

(** The source is exhausted. *)
Definition env_end_of_stream : Env :=
  with_read (AVERROR_EOF, av_init_packet) env_frame.

(** Probing the source fails. *)
Definition env_probe_failure : Env :=
  with_probe (AVERROR_INVALIDDATA, []) env_video_only_100.

(** A source with a video stream followed by an audio stream. *)
Definition env_video_audio : Env :=
  env_with [stream_of AVMEDIA_TYPE_VIDEO; stream_of AVMEDIA_TYPE_AUDIO]
    100 0 (0, false) (0, false).

(** A capture device opened at 640x480 on channel 2. *)
Definition webcam : @DeviceParams ffmpeg3 :=
  @Build_DeviceParams ffmpeg3 "/dev/video0" "video4linux2" 640 480
    (30, 1) "" 2 "" "" 0 0.

(** A video setup followed by a video decode, acceleration disabled. *)
Definition software_session : list (Env * @Op ffmpeg3) :=
  [(env_video_only_100, SetupFromVideoData);
   (env_frame, DecodeVideo blank_frame)].

End Scenario.

(** * Properties *)

(** Unfolds the plumbing of [M], leaving the decisions of the source. *)
Ltac run_M :=
  cbv [mbind M_bind mret M_ret this assign emit undefined deref when
       accel_after assign_inputCtx assign_decoderCtx assign_decBuff
       assign_resamplingBuff av_dict_set close_decoderCtx find_stream
       selected_stream result_of decoder_of trace_of];
  cbn [fst snd app].

(** Reduces member reads of member assignments. *)
Ltac getters :=
  cbn [streamIndex_ startTime_ emulateRate_ decoderCtx_ inputCtx_ avStream_
       accel_ enableAccel_ resampler_ inputDecoder_ set_streamIndex_
       set_startTime_ set_decoderCtx_ set_inputCtx_ set_avStream_ set_accel_
       set_enableAccel_ set_inputDecoder_ set_options_ set_decBuff_
       set_resamplingBuff_ set_resampler_ streams set_streams
       set_max_analyze_duration set_interrupt_callback set_interrupt_opaque
       set_pb fst snd] in *.

(** Splits on every decision of the source in turn. *)
Ltac by_cases :=
  repeat (case_match; run_M; getters; simplify_eq/=; try done).

(** ** Member functions that do not touch the selection *)

Lemma kept_refl d : kept d d.
Proof. by unfold kept. Qed.

Lemma kept_trans d1 d2 d3 : kept d1 d2 → kept d2 d3 → kept d1 d3.
Proof. unfold kept. intros (-> & -> & ->) (-> & -> & ->). done. Qed.

Lemma preserves_ret {A} (x : A) : preserves (mret x).
Proof. intros d r d' t [= <- <- <-]. apply kept_refl. Qed.

Lemma preserves_bind {A B} (k : A → M B) (m : M A) :
  preserves m → (∀ x, preserves (k x)) → preserves (m ≫= k).
Proof.
  intros Hm Hk d r d' t. unfold mbind, M_bind.
  destruct (m d) as [[[x d1] t1]|] eqn:E1; [|done].
  destruct (k x d1) as [[[y d2] t2]|] eqn:E2; [|done].
  intros [= <- <- <-]. eapply kept_trans; [by eapply Hm | by eapply Hk].
Qed.

Lemma preserves_assign (f : MediaDecoder → MediaDecoder) :
  (∀ d, kept d (f d)) → preserves (assign f).
Proof. intros Hf d r d' t [= <- <- <-]. apply Hf. Qed.

Lemma preserves_this : preserves this.
Proof. intros d r d' t [= <- <- <-]. apply kept_refl. Qed.

Lemma preserves_emit e : preserves (emit e).
Proof. intros d r d' t [= <- <- <-]. apply kept_refl. Qed.

Lemma preserves_undefined {A} : preserves (@undefined A).
Proof. intros d r d' t [=]. Qed.

Lemma preserves_deref {A} (p : option A) : preserves (deref p).
Proof. destruct p; [apply preserves_ret | apply preserves_undefined]. Qed.

Lemma preserves_when b m : preserves m → preserves (when b m).
Proof. destruct b; [done | intros _; apply preserves_ret]. Qed.

Create HintDb preserves.
#[global] Hint Resolve preserves_ret preserves_this preserves_emit
  preserves_undefined preserves_deref preserves_when kept_refl : preserves.

(** Walks through a member function made of the steps above. *)
Ltac preserves_steps :=
  repeat first
    [ progress eauto with preserves
    | apply preserves_bind; [|intros ?]
    | apply preserves_when
    | apply preserves_assign; intros ?; by unfold kept
    | match goal with
      | |- preserves (if ?b then _ else _) => destruct b
      | |- preserves (match ?x with _ => _ end) => destruct x
      | |- preserves (let '(_, _) := ?x in _) => destruct x
      end ].

Lemma openInput_preserves `{External} env params :
  preserves (openInput env params).
Proof. unfold openInput, av_dict_set. preserves_steps. Qed.

Lemma setInterruptCallback_preserves cb cb_opaque :
  preserves (setInterruptCallback cb cb_opaque).
Proof. unfold setInterruptCallback, assign_inputCtx. preserves_steps. Qed.

Lemma setIOContext_preserves ioctx_context :
  preserves (setIOContext ioctx_context).
Proof. unfold setIOContext, assign_inputCtx. preserves_steps. Qed.

Lemma emulate_rate_preserves `{External} env frame :
  preserves (emulate_rate env frame).
Proof. unfold emulate_rate, getTimeBase. preserves_steps. Qed.

#[global] Hint Resolve emulate_rate_preserves : preserves.

Lemma decode_video_preserves `{External} env result :
  preserves (decode_video env result).
Proof. unfold decode_video, accel_after. cbv zeta. preserves_steps. Qed.

Lemma decode_audio_preserves `{External} env decodedFrame :
  preserves (decode_audio env decodedFrame).
Proof. unfold decode_audio, accel_after. cbv zeta. preserves_steps. Qed.

Lemma enableAccel_preserves enable : preserves (enableAccel enable).
Proof. unfold enableAccel, assign_decoderCtx. preserves_steps. Qed.

Lemma flush_preserves env result : preserves (flush env result).
Proof. unfold flush, accel_after. cbv zeta. preserves_steps. Qed.

Lemma writeToRingBuffer_preserves `{External} decodedFrame rb outFormat :
  preserves (writeToRingBuffer decodedFrame rb outFormat).
Proof.
  unfold writeToRingBuffer, assign_decBuff, assign_resamplingBuff.
  cbv zeta. preserves_steps.
Qed.

(** ** Pixel formats *)

Section PixFmtFacts.
Context `{External}.

Lemma correctPixFmt_other (f : Z) :
  f ≠ AV_PIX_FMT_YUVJ420P → f ≠ AV_PIX_FMT_YUVJ422P →
  f ≠ AV_PIX_FMT_YUVJ444P → f ≠ AV_PIX_FMT_YUVJ440P →
  correctPixFmt f = f.
Proof.
  intros Ha Hb Hc Hd. unfold correctPixFmt.
  by rewrite !(proj2 (Z.eqb_neq _ _)).
Qed.

Lemma pix_fmt_enumerators_distinct :
  NoDup pix_fmt_enumerators →
  ∀ i j x y, pix_fmt_enumerators !! i = Some x →
             pix_fmt_enumerators !! j = Some y → i ≠ j → x ≠ y.
Proof.
  intros Hnd i j x y Hi Hj Hij ->. apply Hij.
  by eapply NoDup_lookup.
Qed.

(** C4: [correctPixFmt] sends each of the four YUVJ formats to its
    non-J equivalent, is the identity on every other code, and applying it
    twice is the same as applying it once.  The enumerators of
    [AVPixelFormat] are taken to be pairwise different, as those of any
    enum are. *)
Theorem correctPixFmt_normalizes_idempotent :
  NoDup pix_fmt_enumerators →
  correctPixFmt AV_PIX_FMT_YUVJ420P = AV_PIX_FMT_YUV420P ∧
  correctPixFmt AV_PIX_FMT_YUVJ422P = AV_PIX_FMT_YUV422P ∧
  correctPixFmt AV_PIX_FMT_YUVJ444P = AV_PIX_FMT_YUV444P ∧
  correctPixFmt AV_PIX_FMT_YUVJ440P = AV_PIX_FMT_YUV440P ∧
  (∀ f, f ∉ [AV_PIX_FMT_YUVJ420P; AV_PIX_FMT_YUVJ422P;
             AV_PIX_FMT_YUVJ444P; AV_PIX_FMT_YUVJ440P] →
        correctPixFmt f = f) ∧
  (∀ f, correctPixFmt (correctPixFmt f) = correctPixFmt f).
Proof.
  intros Hnd.
  pose proof (pix_fmt_enumerators_distinct Hnd) as D.
  assert (J1 := D 4%nat 5%nat _ _ eq_refl eq_refl ltac:(done)).
  assert (J2 := D 4%nat 6%nat _ _ eq_refl eq_refl ltac:(done)).
  assert (J3 := D 4%nat 7%nat _ _ eq_refl eq_refl ltac:(done)).
  assert (J4 := D 5%nat 6%nat _ _ eq_refl eq_refl ltac:(done)).
  assert (J5 := D 5%nat 7%nat _ _ eq_refl eq_refl ltac:(done)).
  assert (J6 := D 6%nat 7%nat _ _ eq_refl eq_refl ltac:(done)).
  assert (T : ∀ i x, (i < 4)%nat → pix_fmt_enumerators !! i = Some x →
                     correctPixFmt x = x).
  { intros i x Hi Hx. apply correctPixFmt_other.
    - apply (D i 4%nat _ _ Hx eq_refl). lia.
    - apply (D i 5%nat _ _ Hx eq_refl). lia.
    - apply (D i 6%nat _ _ Hx eq_refl). lia.
    - apply (D i 7%nat _ _ Hx eq_refl). lia. }
  assert (E1 : correctPixFmt AV_PIX_FMT_YUVJ420P = AV_PIX_FMT_YUV420P).
  { unfold correctPixFmt. by rewrite Z.eqb_refl. }
  assert (E2 : correctPixFmt AV_PIX_FMT_YUVJ422P = AV_PIX_FMT_YUV422P).
  { unfold correctPixFmt.
    rewrite (proj2 (Z.eqb_neq _ _)) by congruence. by rewrite Z.eqb_refl. }
  assert (E3 : correctPixFmt AV_PIX_FMT_YUVJ444P = AV_PIX_FMT_YUV444P).
  { unfold correctPixFmt.
    rewrite !(proj2 (Z.eqb_neq AV_PIX_FMT_YUVJ444P _)) by congruence.
    by rewrite Z.eqb_refl. }
  assert (E4 : correctPixFmt AV_PIX_FMT_YUVJ440P = AV_PIX_FMT_YUV440P).
  { unfold correctPixFmt.
    rewrite !(proj2 (Z.eqb_neq AV_PIX_FMT_YUVJ440P _)) by congruence.
    by rewrite Z.eqb_refl. }
  assert (Id : ∀ f, f ∉ [AV_PIX_FMT_YUVJ420P; AV_PIX_FMT_YUVJ422P;
                         AV_PIX_FMT_YUVJ444P; AV_PIX_FMT_YUVJ440P] →
                    correctPixFmt f = f).
  { intros f Hf. apply correctPixFmt_other; intros ->; apply Hf; set_solver. }
  repeat split; try done.
  intros f.
  destruct (decide (f = AV_PIX_FMT_YUVJ420P)) as [->|N1];
    [rewrite E1; apply (T 0%nat); [lia|done]|].
  destruct (decide (f = AV_PIX_FMT_YUVJ422P)) as [->|N2];
    [rewrite E2; apply (T 1%nat); [lia|done]|].
  destruct (decide (f = AV_PIX_FMT_YUVJ444P)) as [->|N3];
    [rewrite E3; apply (T 2%nat); [lia|done]|].
  destruct (decide (f = AV_PIX_FMT_YUVJ440P)) as [->|N4];
    [rewrite E4; apply (T 3%nat); [lia|done]|].
  by rewrite !(correctPixFmt_other f) by done.
Qed.

End PixFmtFacts.

(** C4, at the enumerators of FFmpeg 3.x. *)
Lemma correctPixFmt_normalizes_idempotent_ffmpeg3 :
  NoDup (@pix_fmt_enumerators ffmpeg3) ∧
  @correctPixFmt ffmpeg3 (@correctPixFmt ffmpeg3 12)
    = @correctPixFmt ffmpeg3 12.
Proof.
  assert (Hnd : NoDup (@pix_fmt_enumerators ffmpeg3)).
  { apply (bool_decide_unpack _). vm_compute. exact I. }
  split; [exact Hnd|].
  apply (@correctPixFmt_normalizes_idempotent ffmpeg3 Hnd).
Defined.

(** ** The decode loop *)

Lemma AVERROR_EOF_value : AVERROR_EOF = -541478725.
Proof. reflexivity. Qed.

Lemma read_succeeded (ret : Z) :
  0 ≤ ret →
  (ret =? AVERROR EAGAIN) = false ∧ (ret =? AVERROR_EOF) = false ∧
  (ret <? 0) = false.
Proof.
  intros Hret. rewrite AVERROR_EOF_value. unfold AVERROR, EAGAIN.
  repeat split; lia.
Qed.

Lemma receive_error_nonneg (ret : Z) : 0 ≤ ret → receive_error ret = false.
Proof.
  intros Hret. unfold receive_error.
  by rewrite (proj2 (Z.ltb_ge _ _) Hret).
Qed.

Section DecodeFacts.
Context `{External}.

(** C3: when the read succeeds and the packet belongs to another stream
    than the selected one, both [decode] variants free the packet, return
    [Success], and leave the caller's frame (and the decoder) as they
    were. *)
Theorem decode_other_stream_discarded
    (env : Env) (frame : AVFrame) (d : MediaDecoder) :
  0 ≤ (av_read_frame env).1 →
  stream_index (av_read_frame env).2 ≠ streamIndex_ d →
  decode_video env frame d
    = Some ((Success, frame), d, [EvPacketUnref (av_read_frame env).2]) ∧
  decode_audio env frame d
    = Some ((Success, frame), d, [EvPacketUnref (av_read_frame env).2]).
Proof.
  intros Hread Hidx.
  destruct (read_succeeded _ Hread) as (E1 & E2 & E3).
  apply Z.eqb_neq in Hidx.
  unfold decode_video, decode_audio. rewrite E1, E2, E3. run_M.
  by rewrite Hidx.
Qed.

(** C1, as amended: in a call of the video [decode] that reads a packet
    of the selected stream, with an accelerator attached that reports
    failure at the point in question, the result is [RestartRequired] when
    the submission returns a negative result, when the retrieval returns a
    negative result other than "would block" and end of stream, and when a
    frame was produced. *)
Theorem decode_video_accel_failure_restarts
    (env : Env) (result : AVFrame) (d : MediaDecoder) (a : HardwareAccel) :
  0 ≤ (av_read_frame env).1 →
  stream_index (av_read_frame env).2 = streamIndex_ d →
  accel_ d = Some a →
  ((avcodec_send_packet env).1 < 0 ∧ (avcodec_send_packet env).2 = true) ∨
  (0 ≤ (avcodec_send_packet env).1 ∧
   receive_error (avcodec_receive_frame env).1.1 = true ∧
   (avcodec_receive_frame env).2 = true) ∨
  (0 ≤ (avcodec_send_packet env).1 ∧
   0 ≤ (avcodec_receive_frame env).1.1 ∧
   (avcodec_receive_frame env).2 = true) →
  fst <$> result_of (decode_video env result d) = Some RestartRequired.
Proof.
  intros Hread Hidx Haccel Hcase.
  destruct (read_succeeded _ Hread) as (E1 & E2 & E3).
  unfold decode_video. rewrite E1, E2, E3. run_M.
  rewrite Hidx, Z.eqb_refl. cbn [negb].
  unfold accel_failed. cbn [accel_ set_accel_]. rewrite Haccel. cbn [fmap option_fmap option_map hasFailed].
  destruct Hcase as [[Hsend Hfail] | [(Hsend & Hrecv & Hfail) | (Hsend & Hrecv & Hfail)]].
  - rewrite (proj2 (Z.ltb_lt _ _) Hsend), Hfail. done.
  - rewrite (proj2 (Z.ltb_ge _ _) Hsend), Hrecv, Hfail. done.
  - rewrite (proj2 (Z.ltb_ge _ _) Hsend), (receive_error_nonneg _ Hrecv).
    rewrite Hfail, (proj2 (Z.leb_le _ _) Hrecv). done.
Qed.

(** C5, as amended: when [flush] produced a frame and the attached
    accelerator reports failure, [flush] does not call [extractData]: the
    only call out is the release of its blank packet, the caller's frame
    holds what the codec wrote, and the result is [FrameFinished], not
    [RestartRequired]. *)
Theorem flush_failed_accel_skips_extraction
    (env : Env) (result : AVFrame) (d : MediaDecoder) (a : HardwareAccel) :
  accel_ d = Some a →
  0 ≤ (avcodec_send_packet env).1 →
  0 ≤ (avcodec_receive_frame env).1.1 →
  (avcodec_receive_frame env).2 = true →
  flush env result d
    = Some ((FrameFinished, (avcodec_receive_frame env).1.2),
            set_accel_ (Some {| hasFailed := true |}) d,
            [EvPacketUnref av_init_packet]).
Proof.
  intros Haccel Hsend Hrecv Hfail.
  unfold flush. run_M.
  rewrite (proj2 (Z.ltb_ge _ _) Hsend), (receive_error_nonneg _ Hrecv).
  rewrite (proj2 (Z.leb_le _ _) Hrecv), Hfail.
  cbn [accel_ set_accel_]. rewrite Haccel.
  cbn [fmap option_fmap option_map hasFailed negb].
  by destruct d.
Qed.

End DecodeFacts.

Import Fixture.

(** C3, on a packet of stream 1 while stream 0 is selected. *)
Lemma decode_other_stream_discarded_run :
  @decode_video ffmpeg3 env_other_stream blank_frame (ready None)
    = Some ((Success, blank_frame), ready None,
            [EvPacketUnref (av_read_frame env_other_stream).2]) ∧
  @decode_audio ffmpeg3 env_other_stream blank_frame (ready None)
    = Some ((Success, blank_frame), ready None,
            [EvPacketUnref (av_read_frame env_other_stream).2]).
Proof.
  apply (@decode_other_stream_discarded ffmpeg3 env_other_stream
           blank_frame (ready None)).
  - vm_compute. discriminate.
  - vm_compute. discriminate.
Defined.

(** C1, on a frame produced while the accelerator has failed. *)
Lemma decode_video_accel_failure_restarts_run :
  fst <$> result_of (@decode_video ffmpeg3 env_frame_accel_failed blank_frame
                       (ready failed_accel))
    = Some RestartRequired.
Proof.
  apply (@decode_video_accel_failure_restarts ffmpeg3 env_frame_accel_failed
           blank_frame (ready failed_accel) {| hasFailed := true |}).
  - vm_compute. discriminate.
  - reflexivity.
  - reflexivity.
  - right. right. repeat split. vm_compute. discriminate.
    vm_compute. discriminate.
Defined.

(** C1, as stated, fails: the retrieval returns the negative result
    [AVERROR(EAGAIN)] while the attached accelerator reports failure, and
    the video [decode] returns [Success]. *)
Lemma decode_video_would_block_no_restart :
  (avcodec_receive_frame env_would_block).1.1 < 0 ∧
  accel_failed (ready failed_accel) = true ∧
  (avcodec_send_packet env_would_block).2 = true ∧
  (avcodec_receive_frame env_would_block).2 = true ∧
  fst <$> result_of (@decode_video ffmpeg3 env_would_block blank_frame
                       (ready failed_accel))
    = Some Success.
Proof. repeat split. Qed.

(** C2: return paths of [decode] on which the packet read from the
    selected stream is not released.  The audio variant returns [Success]
    with an empty trace when the codec has no frame ready, and both
    variants return [DecodeError] with an empty trace when the submission
    or the retrieval fails. *)
Theorem decode_returns_without_unref :
  @decode_audio ffmpeg3 env_no_frame blank_frame (ready None)
    = Some ((Success, decoded_frame), ready None, []) ∧
  @decode_audio ffmpeg3 env_send_error blank_frame (ready None)
    = Some ((DecodeError, blank_frame), ready None, []) ∧
  @decode_audio ffmpeg3 env_receive_error blank_frame (ready None)
    = Some ((DecodeError, decoded_frame), ready None, []) ∧
  @decode_video ffmpeg3 env_send_error blank_frame (ready None)
    = Some ((DecodeError, blank_frame), ready None, []) ∧
  @decode_video ffmpeg3 env_receive_error blank_frame (ready None)
    = Some ((DecodeError, decoded_frame), ready None, []).
Proof. repeat split. Qed.

(** C5, on a frame flushed while the accelerator has failed. *)
Lemma flush_failed_accel_skips_extraction_run :
  flush env_frame_accel_failed blank_frame (ready failed_accel)
    = Some ((FrameFinished, decoded_frame), ready failed_accel,
            [EvPacketUnref av_init_packet]).
Proof.
  apply (flush_failed_accel_skips_extraction env_frame_accel_failed
           blank_frame (ready failed_accel) {| hasFailed := true |}).
  - reflexivity.
  - vm_compute. discriminate.
  - vm_compute. discriminate.
  - reflexivity.
Defined.

(** C5, as stated, fails: no [extractData] call is made by [flush] when the
    accelerator reports failure, although a frame was produced. *)
Lemma flush_failed_accel_trace :
  accel_failed (ready failed_accel) = true ∧
  (avcodec_receive_frame env_frame_accel_failed).2 = true ∧
  0 ≤ (avcodec_receive_frame env_frame_accel_failed).1.1 ∧
  trace_of (flush env_frame_accel_failed blank_frame
              (ready failed_accel))
    = [EvPacketUnref av_init_packet] ∧
  trace_of (flush env_frame blank_frame
              (ready (Some {| hasFailed := false |})))
    = [EvPacketUnref av_init_packet; EvExtractData decoded_frame].
Proof. repeat split. vm_compute. discriminate. Qed.

(** ** Opening the input *)

Lemma nonzero_spec (n : N) : nonzero n = bool_decide (n ≠ 0%N).
Proof.
  unfold nonzero. destruct (N.eqb_spec n 0).
  - by rewrite bool_decide_false by naive_solver.
  - by rewrite bool_decide_true.
Qed.

Lemma lookup_dict_set_if_eq b k v (o : gmap string string) :
  dict_set_if b k v o !! k = if b then Some v else o !! k.
Proof. destruct b; [apply lookup_insert_eq | done]. Qed.

Lemma lookup_dict_set_if_ne b k k' v (o : gmap string string) :
  k ≠ k' → dict_set_if b k v o !! k' = o !! k'.
Proof. destruct b; [apply lookup_insert_ne | done]. Qed.

(** Looks a literal key up in a dictionary built by literal keys. *)
Ltac dict_lookup :=
  repeat first
    [ rewrite lookup_insert_eq
    | rewrite lookup_insert_ne by done
    | rewrite lookup_dict_set_if_eq
    | rewrite lookup_dict_set_if_ne by done
    | rewrite lookup_empty ].

Section OpenInputFacts.
Context `{External}.

(** The one call of [avformat_open_input] and the dictionary it gets, as
    built from the dictionary the decoder held before. *)
Lemma openInput_trace (env : Env) (params : DeviceParams) (d : MediaDecoder) :
  trace_of (openInput env params d)
  = [EvOpenInput (input params) (dev_format params)
       (dict_set_if (negb (String.eqb (pixel_format params) ""))
          "pixel_format" (pixel_format params)
       (<["max_delay" := pretty (jitterBufferMaxDelay_ * 1000)]>
       (<["reorder_queue_size" := pretty jitterBufferMaxSize_]>
       (<["sdp_flags" := sdp_flags params]>
       (<["loop" := loop params]>
       (dict_set_if (nonzero (channel params))
          "channel" (pretty (channel params))
       (dict_set_if (nonzero (offset_x params) || nonzero (offset_y params))
          "offset_y" (pretty (offset_y params))
       (dict_set_if (nonzero (offset_x params) || nonzero (offset_y params))
          "offset_x" (pretty (offset_x params))
       (dict_set_if (rational_bool (framerate params))
          "framerate" (rational_real_to_string (framerate params))
       (dict_set_if (nonzero (dev_width params) && nonzero (dev_height params))
          "video_size"
          (pretty (dev_width params) +:+ "x" +:+ pretty (dev_height params))
       (options_ d)))))))))))].
Proof.
  unfold openInput.
  destruct (avformat_open_input env) as [[ret unused] tbl].
  destruct (negb (String.eqb (pixel_format params) "")),
    (nonzero (channel params)),
    (nonzero (offset_x params) || nonzero (offset_y params)),
    (rational_bool (framerate params)),
    (nonzero (dev_width params) && nonzero (dev_height params)),
    (ret =? 0); reflexivity.
Qed.

(** C7: on a new decoder, [openInput] hands [avformat_open_input] a
    dictionary in which "video_size" is "WxH" exactly when width and
    height are both non-zero, "channel" is present exactly when the channel
    is non-zero, "pixel_format" exactly when the pixel format is not empty,
    "offset_x" and "offset_y" exactly when one of the offsets is non-zero,
    "loop" and "sdp_flags" always hold the strings of the parameters, and
    "reorder_queue_size" and "max_delay" are always "1500" and "50000". *)
Theorem openInput_option_set
    (env : Env) (params : DeviceParams) (emulate accel : bool) :
  ∃ opts : gmap string string,
    opened_with
      (trace_of (openInput env params (MediaDecoder_new emulate accel)))
      = [opts] ∧
    opts !! "video_size"
      = (if decide (dev_width params ≠ 0%N ∧ dev_height params ≠ 0%N)
         then Some (pretty (dev_width params) +:+ "x"
                    +:+ pretty (dev_height params))
         else None) ∧
    opts !! "channel"
      = (if decide (channel params ≠ 0%N)
         then Some (pretty (channel params)) else None) ∧
    opts !! "pixel_format"
      = (if decide (pixel_format params ≠ "")
         then Some (pixel_format params) else None) ∧
    opts !! "loop" = Some (loop params) ∧
    opts !! "sdp_flags" = Some (sdp_flags params) ∧
    opts !! "offset_x"
      = (if decide (offset_x params ≠ 0%N ∨ offset_y params ≠ 0%N)
         then Some (pretty (offset_x params)) else None) ∧
    opts !! "offset_y"
      = (if decide (offset_x params ≠ 0%N ∨ offset_y params ≠ 0%N)
         then Some (pretty (offset_y params)) else None) ∧
    opts !! "reorder_queue_size" = Some "1500" ∧
    opts !! "max_delay" = Some "50000".
Proof.
  rewrite openInput_trace. eexists. split; [reflexivity|].
  cbn [options_ MediaDecoder_new]. rewrite !nonzero_spec.
  repeat split; dict_lookup; try done.
  - repeat case_bool_decide; case_decide; (done || tauto).
  - case_bool_decide; case_decide; (done || tauto).
  - destruct (String.eqb_spec (pixel_format params) "");
      case_decide; (done || tauto).
  - repeat case_bool_decide; case_decide; (done || tauto).
  - repeat case_bool_decide; case_decide; (done || tauto).
Qed.

End OpenInputFacts.

(** ** The audio post-processor *)

Section RingBufferFacts.
Context `{External}.

(** One call of [writeToRingBuffer] on a decoder with a decoding
    context. *)
Lemma writeToRingBuffer_call (frame : AVFrame) (rb : RingBuffer)
    (outFormat : AudioFormat) (d : MediaDecoder) (ctx : AVCodecContext) :
  decoderCtx_ d = Some ctx →
  ∃ d' b t,
    writeToRingBuffer frame rb outFormat d = Some (put b rb, d', t) ∧
    b = (if rates_differ (frame, outFormat)
         then resamplingBuff_ d' else decBuff_ d') ∧
    t = (if rates_differ (frame, outFormat)
            && bool_decide (resampler_ d = None)
         then [EvResamplerNew outFormat] else []) ∧
    decoderCtx_ d' = Some ctx ∧
    resampler_ d'
      = (if rates_differ (frame, outFormat)
         then Some (default (Resampler_new outFormat) (resampler_ d))
         else resampler_ d) ∧
    buf_format (decBuff_ d')
      = {| fmt_sample_rate := to_unsigned (sample_rate frame);
           fmt_nb_channels := to_unsigned (channels ctx) |} ∧
    (rates_differ (frame, outFormat) = true →
     buf_format (resamplingBuff_ d')
       = {| fmt_sample_rate := fmt_sample_rate outFormat;
            fmt_nb_channels := to_unsigned (channels ctx) |}).
Proof.
  intros Hctx. unfold writeToRingBuffer, rates_differ. cbn [fst snd].
  run_M. rewrite Hctx.
  destruct (negb (to_unsigned (sample_rate frame) =? fmt_sample_rate outFormat))
    eqn:Hrate;
    destruct (decide (sample_fmt ctx = AV_SAMPLE_FMT_FLTP));
    try destruct (decide (sample_fmt ctx = AV_SAMPLE_FMT_S16));
    run_M; cbn [decBuff_ resamplingBuff_ resampler_ decoderCtx_
                set_decBuff_ set_resamplingBuff_ set_resampler_];
    try (destruct (resampler_ d) as [r|] eqn:Hr;
         [rewrite bool_decide_false by done | rewrite bool_decide_true by done];
         run_M; cbn [decBuff_ resamplingBuff_ resampler_ decoderCtx_
                     set_decBuff_ set_resamplingBuff_ set_resampler_];
         try rewrite Hr);
    (do 3 eexists; split; [reflexivity|]); cbn; repeat split; done.
Qed.


(** Converting a second frame forgets the first. *)
Lemma expected_conversion_again (ctx : AVCodecContext) (f1 f2 : AVFrame)
    (before : list (list Z)) :
  expected_conversion ctx f2 (expected_conversion ctx f1 before)
  = expected_conversion ctx f2 before.
Proof. unfold expected_conversion. by repeat case_decide. Qed.

(** The resampler expected of a series, call by call. *)
Lemma expected_resampler_cons (held : option Resampler)
    (frame : AVFrame) (outFormat : AudioFormat)
    (calls : list (AVFrame * AudioFormat)) :
  expected_resampler held ((frame, outFormat) :: calls)
  = expected_resampler
      (if rates_differ (frame, outFormat)
       then Some (default (Resampler_new outFormat) held) else held)
      calls.
Proof.
  unfold expected_resampler. cbn [filter list_filter].
  destruct (rates_differ (frame, outFormat)) eqn:Hdiff.
  - rewrite decide_True by done. by destruct held.
  - by rewrite decide_False by done.
Qed.

(** One call of [writeToRingBuffer]: the conversion buffer it leaves, the
    buffer it puts, the resampler it holds and the one it used. *)
Lemma writeToRingBuffer_pushed (frame : AVFrame) (rb : RingBuffer)
    (outFormat : AudioFormat) (d : MediaDecoder) (ctx : AVCodecContext) :
  decoderCtx_ d = Some ctx →
  ∃ d' b t,
    writeToRingBuffer frame rb outFormat d = Some (rb ++ [b], d', t) ∧
    decoderCtx_ d' = Some ctx ∧
    decBuff_ d'
      = {| buf_format :=
             {| fmt_sample_rate := to_unsigned (sample_rate frame);
                fmt_nb_channels := to_unsigned (channels ctx) |};
           buf_frames := nb_samples frame;
           buf_samples :=
             expected_conversion ctx frame (buf_samples (decBuff_ d)) |} ∧
    (rates_differ (frame, outFormat) = true →
     b = resamplingBuff_ d' ∧
     resampler_ d'
       = Some (default (Resampler_new outFormat) (resampler_ d)) ∧
     t = (if resampler_ d is Some _ then [] else [EvResamplerNew outFormat]) ∧
     b = {| buf_format :=
              {| fmt_sample_rate := fmt_sample_rate outFormat;
                 fmt_nb_channels := to_unsigned (channels ctx) |};
            buf_frames := nb_samples frame;
            buf_samples :=
              resample_samples
                (resampler_format
                   (default (Resampler_new outFormat) (resampler_ d)))
                (to_unsigned (sample_rate frame))
                (fmt_sample_rate outFormat)
                (buf_samples (decBuff_ d')) |}) ∧
    (rates_differ (frame, outFormat) = false →
     b = decBuff_ d' ∧ t = [] ∧ resampler_ d' = resampler_ d ∧
     resamplingBuff_ d' = resamplingBuff_ d).
Proof.
  intros Hctx.
  unfold writeToRingBuffer, rates_differ, expected_conversion.
  cbn [fst snd]. run_M. rewrite Hctx.
  destruct (negb (to_unsigned (sample_rate frame) =? fmt_sample_rate outFormat))
    eqn:Hrate;
    destruct (decide (sample_fmt ctx = AV_SAMPLE_FMT_FLTP)) as [Hf|Hf];
    try destruct (decide (sample_fmt ctx = AV_SAMPLE_FMT_S16)) as [Hs|Hs];
    run_M; getters;
    try (destruct (resampler_ d) as [r|] eqn:Hr;
         [rewrite bool_decide_false by done | rewrite bool_decide_true by done];
         run_M; getters; try rewrite Hr);
    (do 3 eexists; split; [reflexivity|]); cbn;
    repeat split; try done; try congruence.
Qed.

(** A series of calls: the buffers put, in order, and the resampler every
    call with differing rates went through. *)
Lemma writeAll_pushes (calls : list (AVFrame * AudioFormat))
    (rb : RingBuffer) (d : MediaDecoder) (ctx : AVCodecContext) :
  decoderCtx_ d = Some ctx →
  ∃ pushed d',
    writeAll calls rb d
      = Some (rb ++ pushed, d',
              if resampler_ d is Some _ then []
              else expected_constructions calls) ∧
    resampler_ d' = expected_resampler (resampler_ d) calls ∧
    Forall2 (expected_put ctx (expected_resampler (resampler_ d) calls)
               (buf_samples (decBuff_ d)))
      calls pushed.
Proof.
  revert rb d. induction calls as [|[frame outFormat] calls IH];
    intros rb d Hctx.
  - exists [], d. cbn. rewrite app_nil_r. split; [by destruct (resampler_ d)|].
    split; [by destruct (resampler_ d)|constructor].
  - destruct (writeToRingBuffer_pushed frame rb outFormat d ctx Hctx)
      as (d1 & b & t & Hrun & Hctx1 & Hdec & Hdiffer & Hsame).
    destruct (IH (rb ++ [b]) d1 Hctx1) as (pushed & d' & Hrest & Hheld & Hall).
    assert (Hres1 : resampler_ d1
                    = if rates_differ (frame, outFormat)
                      then Some (default (Resampler_new outFormat)
                                   (resampler_ d))
                      else resampler_ d).
    { destruct (rates_differ (frame, outFormat));
        [by destruct Hdiffer as (_ & ? & _)|by destruct Hsame as (_ & _ & ? & _)]. }
    exists (b :: pushed), d'. cbn [writeAll]. unfold mbind, M_bind.
    rewrite Hrun, Hrest, <- app_assoc. cbn [app].
    rewrite expected_resampler_cons, <- Hres1. split; [|split; [done|]].
    + f_equal. f_equal. unfold expected_constructions.
      cbn [filter list_filter]. rewrite Hres1.
      destruct (rates_differ (frame, outFormat)) eqn:Hdiff.
      * rewrite decide_True by done.
        destruct Hdiffer as (_ & _ & -> & _); [done|].
        by destruct (resampler_ d).
      * rewrite decide_False by done.
        destruct Hsame as (_ & -> & _); [done|]. done.
    + constructor.
      * unfold expected_put. cbn [fst snd].
        destruct (rates_differ (frame, outFormat)) eqn:Hdiff.
        -- destruct Hdiffer as (_ & Hr1 & _ & ->); [done|]. cbn.
           repeat split. eexists. split.
           ++ rewrite Hr1. reflexivity.
           ++ by rewrite Hdec.
        -- destruct Hsame as (-> & _); [done|]. rewrite Hdec. cbn.
           repeat split. f_equal.
           unfold rates_differ in Hdiff. cbn in Hdiff.
           apply negb_false_iff, Z.eqb_eq in Hdiff. done.
      * rewrite Hdec in Hall. cbn in Hall.
        eapply Forall2_impl; [exact Hall|].
        intros [f o] b'. unfold expected_put.
        by rewrite expected_conversion_again.
Qed.

(** C8: every call first leaves in the conversion buffer the frame's rate,
    the channel count of the decoding context, the frame's sample count and
    the converted samples.  A call whose frame rate differs from the target
    rate constructs a resampler for the output format only if the decoder
    holds none, and otherwise goes through the one it holds; it puts the
    resampling buffer, shaped to the target sample rate and to the channel
    count of the decoding context, sized to the frame, and holding what
    that resampler makes of the conversion buffer.  A call with equal
    rates puts the conversion buffer, constructs nothing and leaves the
    resampler and the resampling buffer alone.  Over any series of calls
    on a decoder without resampler, exactly one resampler is constructed if
    some call has differing rates (by the first such call, for its output
    format), and none otherwise; the decoder ends with that resampler, the
    ring buffer grows by one buffer per call, in order, and every buffer
    put by a call with differing rates was made by that one resampler. *)
Theorem writeToRingBuffer_resampler_built_once (ctx : AVCodecContext) :
  0 ≤ channels ctx < 2 ^ 32 →
  (∀ frame rb outFormat d,
     decoderCtx_ d = Some ctx →
     ∃ d' b t,
       writeToRingBuffer frame rb outFormat d = Some (rb ++ [b], d', t) ∧
       decBuff_ d'
         = {| buf_format :=
                {| fmt_sample_rate := to_unsigned (sample_rate frame);
                   fmt_nb_channels := channels ctx |};
              buf_frames := nb_samples frame;
              buf_samples :=
                expected_conversion ctx frame (buf_samples (decBuff_ d)) |} ∧
       (rates_differ (frame, outFormat) = true →
        ∃ r,
          resampler_ d' = Some r ∧
          (resampler_ d = None →
           r = Resampler_new outFormat ∧ t = [EvResamplerNew outFormat]) ∧
          (∀ r0, resampler_ d = Some r0 → r = r0 ∧ t = []) ∧
          b = resamplingBuff_ d' ∧
          buf_format b = {| fmt_sample_rate := fmt_sample_rate outFormat;
                            fmt_nb_channels := channels ctx |} ∧
          buf_frames b = nb_samples frame ∧
          buf_samples b
            = resample_samples (resampler_format r)
                (to_unsigned (sample_rate frame))
                (fmt_sample_rate outFormat)
                (buf_samples (decBuff_ d'))) ∧
       (rates_differ (frame, outFormat) = false →
        b = decBuff_ d' ∧ t = [] ∧
        resampler_ d' = resampler_ d ∧
        resamplingBuff_ d' = resamplingBuff_ d)) ∧
  (∀ calls rb d,
     decoderCtx_ d = Some ctx →
     resampler_ d = None →
     ∃ pushed d',
       writeAll calls rb d
         = Some (rb ++ pushed, d', expected_constructions calls) ∧
       length (rb ++ pushed) = (length rb + length calls)%nat ∧
       resampler_ d' = expected_resampler None calls ∧
       Forall2 (expected_put ctx (expected_resampler None calls)
                  (buf_samples (decBuff_ d)))
         calls pushed).
Proof.
  intros Hch.
  assert (Hu : to_unsigned (channels ctx) = channels ctx)
    by (unfold to_unsigned; by rewrite Z.mod_small).
  split.
  - intros frame rb outFormat d Hctx.
    destruct (writeToRingBuffer_pushed frame rb outFormat d ctx Hctx)
      as (d' & b & t & Hrun & _ & Hdec & Hdiffer & Hsame).
    rewrite Hu in Hdec, Hdiffer.
    exists d', b, t. split; [exact Hrun|]. split; [exact Hdec|].
    split; [|exact Hsame].
    intros Hdiff. destruct (Hdiffer Hdiff) as (Hb & Hres & Ht & Hbuf).
    eexists. split; [exact Hres|].
    subst t. split; [by intros ->|]. split; [by intros r0 ->|].
    split; [exact Hb|]. by rewrite Hbuf.
  - intros calls rb d Hctx Hnone.
    destruct (writeAll_pushes calls rb d ctx Hctx)
      as (pushed & d' & Hrun & Hheld & Hall).
    rewrite Hnone in Hrun, Hheld, Hall.
    exists pushed, d'. split; [exact Hrun|]. split; [|done].
    rewrite length_app. by rewrite (Forall2_length _ _ _ Hall).
Qed.


End RingBufferFacts.

(** ** Stream selection and the rate-emulation origin *)

Lemma to_int_small (x : Z) : 0 ≤ x < 2 ^ 31 → to_int x = x.
Proof. intros Hx. unfold to_int. rewrite Z.mod_small; lia. Qed.

Lemma scan_streams_selected kind tbl i idx :
  idx ≠ -1 → scan_streams kind tbl i idx = idx.
Proof.
  intros Hidx. destruct tbl; [done|]. cbn [scan_streams].
  by rewrite (proj2 (Z.eqb_neq _ _) Hidx).
Qed.

Lemma first_of_kind_cons kind s tbl :
  first_of_kind kind (s :: tbl)
  = if decide (codec_type (codecpar s) = kind) then Some 0%nat
    else S <$> first_of_kind kind tbl.
Proof.
  unfold first_of_kind. cbn [list_find]. case_decide; [done|].
  by destruct (list_find _ tbl) as [[j x]|].
Qed.

Lemma scan_streams_none kind tbl i :
  first_of_kind kind tbl = None → scan_streams kind tbl i (-1) = -1.
Proof.
  revert i. induction tbl as [|s tbl IH]; intros i Hnone; [done|].
  rewrite first_of_kind_cons in Hnone. cbn [scan_streams].
  rewrite Z.eqb_refl. case_decide; [done|].
  apply IH. by destruct (first_of_kind kind tbl).
Qed.

Lemma scan_streams_first kind tbl i j :
  Z.of_nat (i + length tbl) ≤ 2 ^ 31 →
  first_of_kind kind tbl = Some j →
  scan_streams kind tbl i (-1) = Z.of_nat (i + j).
Proof.
  revert i j. induction tbl as [|s tbl IH]; intros i j Hlen Hfirst; [done|].
  rewrite first_of_kind_cons in Hfirst. cbn [scan_streams length] in *.
  rewrite Z.eqb_refl. case_decide.
  - injection Hfirst as <-. rewrite to_int_small by lia.
    rewrite scan_streams_selected by lia. f_equal. lia.
  - destruct (first_of_kind kind tbl) as [j'|] eqn:Hj; [|done].
    injection Hfirst as <-. rewrite (IH (S i) j') by (done || lia).
    f_equal. lia.
Qed.

Lemma setupFromAudioData_effect env format d r d' t :
  setupFromAudioData env format d = Some (r, d', t) →
  streamIndex_ d'
    = (if (avformat_find_stream_info env).1 <? 0 then streamIndex_ d
       else scan_streams AVMEDIA_TYPE_AUDIO
              (avformat_find_stream_info env).2 0 (streamIndex_ d)) ∧
  emulateRate_ d' = emulateRate_ d ∧
  (emulateRate_ d = false → startTime_ d' = startTime_ d) ∧
  (r = 0 → emulateRate_ d = true → startTime_ d' = av_gettime env).
Proof.
  unfold setupFromAudioData.
  destruct (avformat_find_stream_info env) as [ret tbl]. run_M. getters.
  by_cases; intros [= <- <- <-]; getters; repeat split; congruence.
Qed.

Lemma setupFromVideoData_effect env d r d' t :
  setupFromVideoData env d = Some (r, d', t) →
  streamIndex_ d'
    = (if (avformat_find_stream_info env).1 <? 0 then streamIndex_ d
       else scan_streams AVMEDIA_TYPE_VIDEO
              (avformat_find_stream_info env).2 0 (streamIndex_ d)) ∧
  emulateRate_ d' = emulateRate_ d ∧
  (emulateRate_ d = false → startTime_ d' = startTime_ d) ∧
  (r = 0 → emulateRate_ d = true → startTime_ d' = av_gettime env).
Proof.
  unfold setupFromVideoData.
  destruct (avformat_find_stream_info env) as [ret tbl]. run_M. getters.
  by_cases; intros [= <- <- <-]; getters; repeat split; congruence.
Qed.

Lemma setupFromAudioData_no_stream env format d :
  streamIndex_ d = -1 →
  first_of_kind AVMEDIA_TYPE_AUDIO (avformat_find_stream_info env).2 = None →
  ∃ d' t, setupFromAudioData env format d = Some (-1, d', t) ∧
          streamIndex_ d' = -1.
Proof.
  intros Hidx Hnone. unfold setupFromAudioData.
  destruct (avformat_find_stream_info env) as [ret tbl]. run_M. getters.
  cbn [snd] in Hnone.
  destruct (decoderCtx_ d); run_M; getters;
    (destruct (ret <? 0); run_M; getters;
     [|rewrite Hidx, (scan_streams_none _ _ _ Hnone); cbn [Z.eqb Pos.eqb];
       run_M; getters];
     (do 2 eexists; split; [reflexivity|]; getters; try done;
      by apply scan_streams_none)).
Qed.

Lemma setupFromVideoData_no_stream env d :
  streamIndex_ d = -1 →
  first_of_kind AVMEDIA_TYPE_VIDEO (avformat_find_stream_info env).2 = None →
  ∃ d' t, setupFromVideoData env d = Some (-1, d', t) ∧
          streamIndex_ d' = -1.
Proof.
  intros Hidx Hnone. unfold setupFromVideoData.
  destruct (avformat_find_stream_info env) as [ret tbl]. run_M. getters.
  cbn [snd] in Hnone.
  destruct (decoderCtx_ d); run_M; getters;
    (destruct (ret <? 0); run_M; getters;
     [|rewrite Hidx, (scan_streams_none _ _ _ Hnone); cbn [Z.eqb Pos.eqb];
       run_M; getters];
     (do 2 eexists; split; [reflexivity|]; getters; try done;
      by apply scan_streams_none)).
Qed.

Lemma discard_result_inv {A} (m : M A) d d' t :
  (m ;; mret ()) d = Some ((), d', t) → ∃ r, m d = Some (r, d', t).
Proof.
  unfold mbind, M_bind, mret, M_ret.
  destruct (m d) as [[[r d1] t1]|]; [|done].
  intros [= <- <-]. rewrite app_nil_r. eauto.
Qed.

Section SelectionFacts.
Context `{External}.

Lemma step_kept env op d d' t :
  requested_kind op = None → step env op d = Some ((), d', t) → kept d d'.
Proof.
  intros Hop Hstep. destruct op; try discriminate Hop; cbn [step] in Hstep;
    try (apply discard_result_inv in Hstep as [r Hstep]);
    revert Hstep.
  - apply openInput_preserves.
  - apply setInterruptCallback_preserves.
  - apply setIOContext_preserves.
  - apply decode_video_preserves.
  - apply decode_audio_preserves.
  - apply enableAccel_preserves.
  - apply flush_preserves.
  - apply writeToRingBuffer_preserves.
Qed.

Lemma step_selected env op d d' t :
  step env op d = Some ((), d', t) →
  streamIndex_ d ≠ -1 → streamIndex_ d' = streamIndex_ d.
Proof.
  intros Hstep Hidx.
  destruct (requested_kind op) as [kind|] eqn:Hop;
    [|by apply (step_kept env op d d' t Hop Hstep)].
  destruct op; try discriminate Hop; cbn [step] in Hstep;
    apply discard_result_inv in Hstep as [r Hstep].
  - apply setupFromAudioData_effect in Hstep as (-> & _).
    rewrite scan_streams_selected by done. by destruct (_ <? _).
  - apply setupFromVideoData_effect in Hstep as (-> & _).
    rewrite scan_streams_selected by done. by destruct (_ <? _).
Qed.

Lemma step_flag env op d d' t :
  step env op d = Some ((), d', t) → emulateRate_ d' = emulateRate_ d.
Proof.
  intros Hstep.
  destruct (requested_kind op) as [kind|] eqn:Hop;
    [|by apply (step_kept env op d d' t Hop Hstep)].
  destruct op; try discriminate Hop; cbn [step] in Hstep;
    apply discard_result_inv in Hstep as [r Hstep].
  - by apply setupFromAudioData_effect in Hstep as (_ & -> & _).
  - by apply setupFromVideoData_effect in Hstep as (_ & -> & _).
Qed.

Lemma run_cons_inv env op ops d d' t :
  run ((env, op) :: ops) d = Some ((), d', t) →
  ∃ d1 t1 t2, step env op d = Some ((), d1, t1) ∧
              run ops d1 = Some ((), d', t2) ∧ t = t1 ++ t2.
Proof.
  cbn [run]. unfold mbind, M_bind.
  destruct (step env op d) as [[[[] d1] t1]|]; [|done].
  destruct (run ops d1) as [[[[] d2] t2]|] eqn:Hrest; [|done].
  intros [= <- <-]. by exists d1, t1, t2.
Qed.

(** C9, as amended: the selected stream index is -1 on a new decoder;
    once it differs from -1 no series of operations changes it; an
    operation that changes it from -1 is a setup call, and the new value is
    the position of the first stream of the requested kind in the probed
    stream table; and a setup call made while the index is -1 returns -1
    when the table has no stream of the requested kind. *)
Theorem streamIndex_selected_once_by_setup :
  (∀ emulate accel, streamIndex_ (MediaDecoder_new emulate accel) = -1) ∧
  (∀ ops d d' t,
     run ops d = Some ((), d', t) →
     streamIndex_ d ≠ -1 → streamIndex_ d' = streamIndex_ d) ∧
  (∀ env op d d' t,
     step env op d = Some ((), d', t) →
     streamIndex_ d = -1 →
     Z.of_nat (length (avformat_find_stream_info env).2) ≤ 2 ^ 31 →
     streamIndex_ d' ≠ -1 →
     ∃ kind i,
       requested_kind op = Some kind ∧
       first_of_kind kind (avformat_find_stream_info env).2 = Some i ∧
       streamIndex_ d' = Z.of_nat i) ∧
  (∀ env format d,
     streamIndex_ d = -1 →
     first_of_kind AVMEDIA_TYPE_AUDIO (avformat_find_stream_info env).2
       = None →
     ∃ d' t, setupFromAudioData env format d = Some (-1, d', t) ∧
             streamIndex_ d' = -1) ∧
  (∀ env d,
     streamIndex_ d = -1 →
     first_of_kind AVMEDIA_TYPE_VIDEO (avformat_find_stream_info env).2
       = None →
     ∃ d' t, setupFromVideoData env d = Some (-1, d', t) ∧
             streamIndex_ d' = -1).
Proof.
  split; [done|]. split; [|split; [|split]].
  - intros ops. induction ops as [|[env op] ops IH]; intros d d' t Hrun Hidx.
    + by injection Hrun as <- <-.
    + apply run_cons_inv in Hrun as (d1 & t1 & t2 & Hstep & Hrest & _).
      pose proof (step_selected _ _ _ _ _ Hstep Hidx) as Hd1.
      rewrite <- Hd1. apply (IH d1 d' t2 Hrest). by rewrite Hd1.
  - intros env op d d' t Hstep Hidx Hlen Hset.
    destruct (requested_kind op) as [kind|] eqn:Hop.
    + exists kind.
      assert (Hscan : streamIndex_ d'
                = if (avformat_find_stream_info env).1 <? 0 then -1
                  else scan_streams kind (avformat_find_stream_info env).2
                         0 (-1)).
      { rewrite <- Hidx at 1. rewrite <- Hidx.
        destruct op; try discriminate Hop; injection Hop as <-;
          cbn [step] in Hstep;
          apply discard_result_inv in Hstep as [r Hstep].
        - by apply setupFromAudioData_effect in Hstep as (-> & _).
        - by apply setupFromVideoData_effect in Hstep as (-> & _). }
      destruct (_ <? _); [done|].
      destruct (first_of_kind kind (avformat_find_stream_info env).2)
        as [i|] eqn:Hfirst.
      * exists i. rewrite (scan_streams_first _ _ _ i) in Hscan by done.
        done.
      * by rewrite scan_streams_none in Hscan.
    + destruct (step_kept env op d d' t Hop Hstep) as (Hkeep & _).
      congruence.
  - apply setupFromAudioData_no_stream.
  - apply setupFromVideoData_no_stream.
Qed.

(** C6, as amended: the rate-emulation origin is [AV_NOPTS_VALUE] on a new
    decoder; no operation other than a setup call changes it; no operation
    changes it while rate emulation is off; no operation changes the
    rate-emulation flag; and with rate emulation on, every setup call that
    succeeds overwrites the origin with the current time, whatever it was
    before. *)
Theorem startTime_rewritten_by_each_setup :
  (∀ emulate accel,
     startTime_ (MediaDecoder_new emulate accel) = AV_NOPTS_VALUE) ∧
  (∀ env op d d' t,
     step env op d = Some ((), d', t) →
     requested_kind op = None → startTime_ d' = startTime_ d) ∧
  (∀ env op d d' t,
     step env op d = Some ((), d', t) →
     emulateRate_ d' = emulateRate_ d ∧
     (emulateRate_ d = false → startTime_ d' = startTime_ d)) ∧
  (∀ env format d d' t,
     setupFromAudioData env format d = Some (0, d', t) →
     emulateRate_ d = true → startTime_ d' = av_gettime env) ∧
  (∀ env d d' t,
     setupFromVideoData env d = Some (0, d', t) →
     emulateRate_ d = true → startTime_ d' = av_gettime env).
Proof.
  split; [done|]. split; [|split; [|split]].
  - intros env op d d' t Hstep Hop.
    by destruct (step_kept env op d d' t Hop Hstep) as (_ & ? & _).
  - intros env op d d' t Hstep.
    split; [by eapply step_flag|]. intros Hoff.
    destruct (requested_kind op) as [kind|] eqn:Hop;
      [|by destruct (step_kept env op d d' t Hop Hstep) as (_ & ? & _)].
    destruct op; try discriminate Hop; cbn [step] in Hstep;
      apply discard_result_inv in Hstep as [r Hstep].
    + apply setupFromAudioData_effect in Hstep as (_ & _ & Hkeep & _). auto.
    + apply setupFromVideoData_effect in Hstep as (_ & _ & Hkeep & _). auto.
  - intros env format d d' t Hrun Hon.
    apply setupFromAudioData_effect in Hrun as (_ & _ & _ & Hset). auto.
  - intros env d d' t Hrun Hon.
    apply setupFromVideoData_effect in Hrun as (_ & _ & _ & Hset). auto.
Qed.

End SelectionFacts.

(** C8, on two 48 kHz frames written for a 16 kHz consumer. *)
Lemma writeToRingBuffer_resampler_built_once_run :
  ∃ pushed d',
    @writeAll ffmpeg3 [(decoded_frame, wideband); (decoded_frame, wideband)]
      [] (ready None)
    = Some ([] ++ pushed, d', [EvResamplerNew wideband]) ∧
    length ([] ++ pushed) = 2%nat ∧
    resampler_ d' = Some (Resampler_new wideband) ∧
    Forall2 (@expected_put ffmpeg3 ready_context
               (Some (Resampler_new wideband))
               (buf_samples (decBuff_ (ready None))))
      [(decoded_frame, wideband); (decoded_frame, wideband)] pushed.
Proof.
  assert (Hch : 0 ≤ channels ready_context < 2 ^ 32) by (cbn; lia).
  apply (proj2 (@writeToRingBuffer_resampler_built_once ffmpeg3
                  ready_context Hch)
           [(decoded_frame, wideband); (decoded_frame, wideband)]
           [] (ready None)); reflexivity.
Defined.


(** C9, on an audio setup of a new decoder whose source has one video
    stream. *)
Lemma streamIndex_selected_once_by_setup_run :
  ∃ d' t,
    setupFromAudioData env_video_only_100 cd_quality
      (MediaDecoder_new false true)
    = Some (-1, d', t) ∧
    streamIndex_ d' = -1.
Proof.
  apply (proj1 (proj2 (proj2 (proj2
           (@streamIndex_selected_once_by_setup ffmpeg3)))));
    reflexivity.
Defined.

(** C9, as stated, fails: after a video setup has selected stream 0, an
    audio setup on a source without any audio stream keeps that selection
    and returns 0, not -1. *)
Lemma setup_audio_after_video_returns_0 :
  first_of_kind AVMEDIA_TYPE_AUDIO
    (avformat_find_stream_info env_video_only_200).2 = None ∧
  result_of (video_then_audio_setup (MediaDecoder_new false true)) = Some 0 ∧
  streamIndex_ <$> decoder_of
                     (video_then_audio_setup (MediaDecoder_new false true))
    = Some 0.
Proof. repeat split. Qed.

(** C6, on a video setup of a new decoder with rate emulation on, at
    clock 200. *)
Lemma startTime_rewritten_by_each_setup_run :
  startTime_ <$> decoder_of
                   (setupFromVideoData env_video_only_200
                      (MediaDecoder_new true true))
    = Some 200.
Proof.
  assert (Hrun : ∃ d' t,
            setupFromVideoData env_video_only_200 (MediaDecoder_new true true)
            = Some (0, d', t)) by (vm_compute; eauto).
  destruct Hrun as (d' & t & Hrun). rewrite Hrun.
  cbn [decoder_of fmap option_fmap option_map]. f_equal.
  apply (proj2 (proj2 (proj2 (proj2
           (@startTime_rewritten_by_each_setup ffmpeg3))))
           env_video_only_200 (MediaDecoder_new true true) d' t Hrun).
  reflexivity.
Defined.

(** C6, as stated, fails: with rate emulation on, a first successful setup
    at clock 100 sets the origin to 100, and a second successful setup at
    clock 200 overwrites it with 200. *)
Lemma startTime_overwritten_by_second_setup :
  result_of (setupFromVideoData env_video_only_100
               (MediaDecoder_new true true)) = Some 0 ∧
  startTime_ <$> decoder_of
                   (setupFromVideoData env_video_only_100
                      (MediaDecoder_new true true))
    = Some 100 ∧
  result_of (video_setup_twice (MediaDecoder_new true true)) = Some 0 ∧
  startTime_ <$> decoder_of (video_setup_twice (MediaDecoder_new true true))
    = Some 200.
Proof. repeat split. Qed.

(** * Further properties of the member functions *)

(** Turns boolean tests of the source into integer facts. *)
Ltac to_Z :=
  repeat match goal with
    | H : (_ =? _) = true |- _ => apply Z.eqb_eq in H
    | H : (_ =? _) = false |- _ => apply Z.eqb_neq in H
    | H : (_ <? _) = true |- _ => apply Z.ltb_lt in H
    | H : (_ <? _) = false |- _ => apply Z.ltb_ge in H
    | H : (_ <=? _) = true |- _ => apply Z.leb_le in H
    | H : (_ <=? _) = false |- _ => apply Z.leb_gt in H
    | H : (_ >? _) = true |- _ => apply Z.gtb_lt in H
    | H : negb _ = false |- _ => apply negb_false_iff in H
    | H : negb _ = true |- _ => apply negb_true_iff in H
    | H : receive_error ?r = true |- _ =>
        assert (r < 0)
          by (unfold receive_error in H;
              destruct (Z.ltb_spec r 0); [done | discriminate H]);
        clear H
    end.

(** Splits on every decision of a decode call. *)
Ltac decode_cases :=
  unfold decode_video, decode_audio, flush, emulate_rate, getTimeBase,
    receive_error;
  run_M; getters; by_cases.

(** Splits on whether the decoder [d] holds an accelerator. *)
Ltac with_accel d :=
  unfold accel_failed in *; getters;
  destruct (accel_ d) as [[?]|] eqn:?;
  cbn [fmap option_fmap option_map hasFailed negb] in *; simplify_eq/=;
  to_Z.

Lemma decode_threads_range env : 1 ≤ decode_threads env ≤ 8.
Proof. unfold decode_threads. lia. Qed.

Lemma to_unsigned_to_int (x : Z) : to_unsigned (to_int x) = x mod 2 ^ 32.
Proof.
  unfold to_unsigned, to_int.
  rewrite <- Zminus_mod_idemp_l, Z.mod_mod by lia.
  rewrite Zminus_mod_idemp_l. f_equal. lia.
Qed.

Lemma first_of_kind_lookup kind tbl i :
  first_of_kind kind tbl = Some i →
  ∃ st, tbl !! i = Some st ∧ codec_type (codecpar st) = kind.
Proof.
  unfold first_of_kind.
  destruct (list_find _ tbl) as [[j st]|] eqn:Hfind; [|done].
  intros [= <-]. apply list_find_Some in Hfind as (? & ? & _). eauto.
Qed.

Lemma extractions_app t1 t2 :
  extractions (t1 ++ t2) = extractions t1 ++ extractions t2.
Proof. apply omap_app. Qed.

(** ** The decode loop, continued *)

Section DecodeMore.
Context `{External}.

(** X1: when the read fails, both [decode] variants return without
    touching the codec, the packet, the frame or the decoder: [Success]
    for "would block", [EOFError] for end of stream, [ReadError] for any
    other negative result. *)
Theorem decode_read_failure (env : Env) (frame : AVFrame) (d : MediaDecoder) :
  (av_read_frame env).1 < 0 →
  ∃ s,
    decode_video env frame d = Some ((s, frame), d, []) ∧
    decode_audio env frame d = Some ((s, frame), d, []) ∧
    (s = Success ↔ (av_read_frame env).1 = AVERROR EAGAIN) ∧
    (s = EOFError ↔ (av_read_frame env).1 = AVERROR_EOF) ∧
    (s = ReadError ↔ (av_read_frame env).1 ≠ AVERROR EAGAIN ∧
                     (av_read_frame env).1 ≠ AVERROR_EOF).
Proof.
  intros Hneg. unfold decode_video, decode_audio.
  rewrite AVERROR_EOF_value in *. change (AVERROR EAGAIN) with (-11) in *.
  destruct (Z.eqb_spec (av_read_frame env).1 (-11)) as [E1|E1].
  { exists Success.
    repeat split; try done; intros; first [done | lia | exfalso; lia]. }
  destruct (Z.eqb_spec (av_read_frame env).1 (-541478725)) as [E2|E2].
  { exists EOFError.
    repeat split; try done; intros; first [done | lia | exfalso; lia]. }
  rewrite (proj2 (Z.ltb_lt _ _) Hneg).
  exists ReadError.
  repeat split; try done; intros; first [done | lia | exfalso; lia].
Qed.

(** X2: the video [decode] returns [RestartRequired] only if an
    accelerator was attached when the call started; the accelerator then
    counts as failed after the call, and [extractData] was not called. *)
Theorem restart_requires_failed_accelerator env frame d f d' t :
  decode_video env frame d = Some ((RestartRequired, f), d', t) →
  is_Some (accel_ d) ∧ accel_ d' = Some {| hasFailed := true |} ∧
  extractions t = [].
Proof.
  decode_cases.
  all: intros [= <- <- <-]; with_accel d; repeat split; eauto; congruence.
Qed.

(** X3: the audio [decode] and [flush] never return [RestartRequired],
    whatever the state of the decoder and the answers of the codec. *)
Theorem audio_and_flush_never_restart env frame d :
  fst <$> result_of (decode_audio env frame d) ≠ Some RestartRequired ∧
  fst <$> result_of (flush env frame d) ≠ Some RestartRequired.
Proof. split; decode_cases. Qed.

(** X4: no call releases a packet twice: the trace of a [decode] call
    holds at most one [av_packet_unref], of the packet read, and the trace
    of [flush] at most one, of its blank packet. *)
Theorem decode_unrefs_at_most_once env frame d :
  (unrefs (trace_of (decode_video env frame d)) = [] ∨
   unrefs (trace_of (decode_video env frame d)) = [(av_read_frame env).2]) ∧
  (unrefs (trace_of (decode_audio env frame d)) = [] ∨
   unrefs (trace_of (decode_audio env frame d)) = [(av_read_frame env).2]) ∧
  (unrefs (trace_of (flush env frame d)) = [] ∨
   unrefs (trace_of (flush env frame d)) = [av_init_packet]).
Proof. repeat split; decode_cases; cbn; auto. Qed.

(** X5: a video [decode] call that returns, whose read succeeded and in
    which neither the submission nor the retrieval failed, releases the
    packet exactly once, whether the packet was of the selected stream or
    not and whether a frame came out or not. *)
Theorem decode_video_releases_packet env frame d :
  0 ≤ (av_read_frame env).1 →
  0 ≤ (avcodec_send_packet env).1 →
  receive_error (avcodec_receive_frame env).1.1 = false →
  is_Some (decode_video env frame d) →
  unrefs (trace_of (decode_video env frame d)) = [(av_read_frame env).2].
Proof.
  intros Hread Hsend Hrecv.
  destruct (read_succeeded _ Hread) as (E1 & E2 & E3).
  unfold decode_video. rewrite E1, E2, E3, Hrecv.
  rewrite (proj2 (Z.ltb_ge _ _) Hsend).
  unfold emulate_rate, getTimeBase. run_M. getters. by_cases.
  all: by intros [? [=]].
Qed.

(** X6: the video [decode] returns [FrameFinished] exactly when the read
    succeeded, the packet is of the selected stream, submission and
    retrieval returned non-negative results, and no accelerator is
    attached or the attached one does not count as failed after the
    retrieval. *)
Theorem decode_video_frame_finished_iff env frame d s f d' t :
  decode_video env frame d = Some ((s, f), d', t) →
  s = FrameFinished ↔
    0 ≤ (av_read_frame env).1 ∧
    stream_index (av_read_frame env).2 = streamIndex_ d ∧
    0 ≤ (avcodec_send_packet env).1 ∧
    0 ≤ (avcodec_receive_frame env).1.1 ∧
    (accel_ d = None ∨ (avcodec_receive_frame env).2 = false).
Proof.
  unfold decode_video, emulate_rate, getTimeBase.
  rewrite AVERROR_EOF_value. change (AVERROR EAGAIN) with (-11).
  run_M. getters. by_cases.
  all: intros [= <- <- <-]; with_accel d.
  all: split; [intros ?|intros (? & ? & ? & ? & [?|?])];
    first [done | lia | by repeat split; auto; lia | congruence].
Qed.

(** X7: the audio [decode] returns [FrameFinished] exactly when the read
    succeeded, the packet is of the selected stream, and submission and
    retrieval returned non-negative results; the packet is then released
    and the caller's frame is the one the codec wrote. *)
Theorem decode_audio_frame_finished_iff env frame d s f d' t :
  decode_audio env frame d = Some ((s, f), d', t) →
  (s = FrameFinished ↔
     0 ≤ (av_read_frame env).1 ∧
     stream_index (av_read_frame env).2 = streamIndex_ d ∧
     0 ≤ (avcodec_send_packet env).1 ∧
     0 ≤ (avcodec_receive_frame env).1.1) ∧
  (s = FrameFinished →
   unrefs t = [(av_read_frame env).2] ∧
   f = (avcodec_receive_frame env).1.2).
Proof.
  unfold decode_audio, emulate_rate, getTimeBase.
  rewrite AVERROR_EOF_value. change (AVERROR EAGAIN) with (-11).
  run_M. getters. by_cases.
  all: intros [= <- <- <-]; to_Z.
  all: split; [split; [intros ?|intros (? & ? & ? & ?)]|intros ?];
    first [done | lia | by subst | by repeat split; auto; lia | congruence].
Qed.

(** X8: [flush] always returns, with [FrameFinished] exactly when
    submission and retrieval returned non-negative results, with
    [DecodeError] exactly when the submission failed other than by end of
    stream or the retrieval failed other than by "would block" or end of
    stream, and with [Success] otherwise; its blank packet is released
    exactly when a frame came out. *)
Theorem flush_status env frame d :
  ∃ s f d' t,
    flush env frame d = Some ((s, f), d', t) ∧
    (s = FrameFinished ↔
       0 ≤ (avcodec_send_packet env).1 ∧
       0 ≤ (avcodec_receive_frame env).1.1) ∧
    (s = DecodeError ↔
       (avcodec_send_packet env).1 < 0 ∧
       (avcodec_send_packet env).1 ≠ AVERROR_EOF ∨
       0 ≤ (avcodec_send_packet env).1 ∧
       receive_error (avcodec_receive_frame env).1.1 = true) ∧
    (s = Success ∨ s = FrameFinished ∨ s = DecodeError) ∧
    unrefs t = (if decide (s = FrameFinished) then [av_init_packet] else []).
Proof.
  unfold flush. run_M. getters.
  destruct (Z.ltb_spec (avcodec_send_packet env).1 0) as [Hs|Hs]; run_M.
  - destruct (Z.eqb_spec (avcodec_send_packet env).1 AVERROR_EOF) as [E|E];
      do 4 eexists; (split; [reflexivity|]); cbn;
      repeat split; try done; intros; try lia; auto;
      try (destruct_or!; destruct_and!; first [done | lia]).
  - destruct (receive_error (avcodec_receive_frame env).1.1) eqn:Hr; run_M.
    + do 4 eexists; (split; [reflexivity|]); cbn. to_Z.
      repeat split; try done; intros; try lia; auto.
    + destruct (Z.leb_spec 0 (avcodec_receive_frame env).1.1) as [Hf|Hf];
        run_M; getters; by_cases;
        do 4 eexists; (split; [reflexivity|]); cbn;
        repeat split; try done; intros; try lia; auto;
        try (destruct_or!; destruct_and!; first [done | lia]).
Qed.

(** X9: without rate emulation no [decode] call sleeps; a sleep that
    does occur has a positive duration; [flush] never sleeps. *)
Theorem decode_sleeps_only_when_emulating env frame d :
  (emulateRate_ d = false →
   sleeps (trace_of (decode_video env frame d)) = [] ∧
   sleeps (trace_of (decode_audio env frame d)) = []) ∧
  (∀ us, us ∈ sleeps (trace_of (decode_video env frame d)) → 0 < us) ∧
  (∀ us, us ∈ sleeps (trace_of (decode_audio env frame d)) → 0 < us) ∧
  sleeps (trace_of (flush env frame d)) = [].
Proof.
  split; [intros Hoff; split|split; [|split]].
  - decode_cases; rewrite Hoff in *; done.
  - decode_cases; rewrite Hoff in *; done.
  - intros us. decode_cases; cbn; try by intros ?%elem_of_nil.
    all: intros ->%list_elem_of_singleton; to_Z; lia.
  - intros us. decode_cases; cbn; try by intros ?%elem_of_nil.
    all: intros ->%list_elem_of_singleton; to_Z; lia.
  - decode_cases.
Qed.

Lemma correctPixFmt_not_yuvj (x : Z) :
  NoDup pix_fmt_enumerators →
  correctPixFmt x ∉ [AV_PIX_FMT_YUVJ420P; AV_PIX_FMT_YUVJ422P;
                     AV_PIX_FMT_YUVJ444P; AV_PIX_FMT_YUVJ440P].
Proof.
  intros Hnd.
  change pix_fmt_enumerators
    with ([AV_PIX_FMT_YUV420P; AV_PIX_FMT_YUV422P; AV_PIX_FMT_YUV444P;
           AV_PIX_FMT_YUV440P]
          ++ [AV_PIX_FMT_YUVJ420P; AV_PIX_FMT_YUVJ422P;
              AV_PIX_FMT_YUVJ444P; AV_PIX_FMT_YUVJ440P]) in Hnd.
  apply NoDup_app in Hnd as (_ & Hdisj & _).
  unfold correctPixFmt. repeat (case_match; to_Z).
  - apply Hdisj. set_solver.
  - apply Hdisj. set_solver.
  - apply Hdisj. set_solver.
  - apply Hdisj. set_solver.
  - set_solver.
Qed.

(** X10: a frame the video [decode] finishes without accelerator is the
    frame the codec wrote with its pixel format normalised, so its format
    is none of the four YUVJ formats, and [extractData] is not called. *)
Theorem decode_video_software_frame_normalized env frame d f d' t :
  NoDup pix_fmt_enumerators →
  accel_ d = None →
  decode_video env frame d = Some ((FrameFinished, f), d', t) →
  f = set_format (correctPixFmt (format (avcodec_receive_frame env).1.2))
        (avcodec_receive_frame env).1.2 ∧
  (format f ∉ [AV_PIX_FMT_YUVJ420P; AV_PIX_FMT_YUVJ422P;
               AV_PIX_FMT_YUVJ444P; AV_PIX_FMT_YUVJ440P]) ∧
  extractions t = [].
Proof.
  intros Hnd Hsw. decode_cases.
  all: intros [= <- <- <-]; with_accel d.
  all: repeat split; try done; by apply correctPixFmt_not_yuvj.
Qed.

(** X11: a [decode] or [flush] call changes no member of the decoder
    other than the state of the accelerator; without accelerator the
    decoder is left exactly as it was. *)
Theorem decode_touches_only_accelerator env frame d r d' t :
  decode_video env frame d = Some (r, d', t) ∨
  decode_audio env frame d = Some (r, d', t) ∨
  flush env frame d = Some (r, d', t) →
  d' = set_accel_ (accel_ d') d ∧ (accel_ d = None → d' = d).
Proof.
  intros [Hrun|[Hrun|Hrun]]; revert Hrun; decode_cases.
  all: intros [= <- <- <-]; getters; split; [by destruct d|].
  all: intros Hnone; destruct d; cbn in *; by subst.
Qed.

(** X22: once acceleration is disabled with [enableAccel(false)], the
    next video [decode] does not return [RestartRequired] and does not
    call [extractData], whatever accelerator was attached before. *)
Theorem decode_after_disabling_accel env frame d :
  fst <$> result_of ((enableAccel false;; decode_video env frame) d)
    ≠ Some RestartRequired ∧
  extractions (trace_of ((enableAccel false;; decode_video env frame) d))
    = [].
Proof.
  unfold enableAccel, decode_video, emulate_rate, getTimeBase.
  run_M. getters. split; by_cases.
Qed.

End DecodeMore.

(** ** Setup, continued *)

(** X12: a successful [setupFromVideoData] leaves the stream table of
    the probe and an analysis duration of 30 seconds in the input context,
    a selected index inside the table with [avStream_] the stream at that
    index, the decoder found for that stream's codec, an open decoding
    context with between 1 and 8 threads, and, when acceleration is
    enabled, the accelerator made for the context, with the context's
    opaque pointer set exactly when one was made. *)
Theorem setupFromVideoData_success env d d' t :
  setupFromVideoData env d = Some (0, d', t) →
  ∃ st dec ctx,
    0 ≤ (avformat_find_stream_info env).1 ∧
    avcodec_open2 env = 0 ∧
    streams (inputCtx_ d') = (avformat_find_stream_info env).2 ∧
    max_analyze_duration (inputCtx_ d') = 30000000 ∧
    0 ≤ streamIndex_ d' ∧
    streams (inputCtx_ d') !! Z.to_nat (streamIndex_ d') = Some st ∧
    avStream_ d' = Some st ∧
    video_findDecoder env (codec_id (codecpar st)) = Some dec ∧
    inputDecoder_ d' = Some dec ∧
    decoderCtx_ d' = Some ctx ∧
    is_open ctx = true ∧
    1 ≤ thread_count ctx ≤ 8 ∧
    accel_ d' = (if enableAccel_ d then makeHardwareAccel env else accel_ d) ∧
    (enableAccel_ d = true → opaque ctx = bool_decide (is_Some (accel_ d'))).
Proof.
  unfold setupFromVideoData.
  destruct (avformat_find_stream_info env) as [ret tbl]. run_M. getters.
  pose proof (decode_threads_range env).
  by_cases; intros [= <- <-]; getters; to_Z;
    do 3 eexists; repeat split; cbn; (done || lia).
Qed.

(** X13: a successful [setupFromAudioData] leaves the same as the video
    setup does, with the decoder found by [avcodec_find_decoder], the
    channel count and the sample rate of the context set to those of the
    requested format (converted to [int]), and the accelerator handle
    untouched. *)
Theorem setupFromAudioData_success env format d d' t :
  setupFromAudioData env format d = Some (0, d', t) →
  ∃ st dec ctx,
    0 ≤ (avformat_find_stream_info env).1 ∧
    avcodec_open2 env = 0 ∧
    streams (inputCtx_ d') = (avformat_find_stream_info env).2 ∧
    max_analyze_duration (inputCtx_ d') = 30000000 ∧
    0 ≤ streamIndex_ d' ∧
    streams (inputCtx_ d') !! Z.to_nat (streamIndex_ d') = Some st ∧
    avStream_ d' = Some st ∧
    avcodec_find_decoder env (codec_id (codecpar st)) = Some dec ∧
    inputDecoder_ d' = Some dec ∧
    decoderCtx_ d' = Some ctx ∧
    is_open ctx = true ∧
    1 ≤ thread_count ctx ≤ 8 ∧
    channels ctx = to_int (fmt_nb_channels format) ∧
    ctx_sample_rate ctx = to_int (fmt_sample_rate format) ∧
    accel_ d' = accel_ d.
Proof.
  unfold setupFromAudioData.
  destruct (avformat_find_stream_info env) as [ret tbl]. run_M. getters.
  pose proof (decode_threads_range env).
  by_cases; intros [= <- <-]; getters; to_Z;
    do 3 eexists; repeat split; cbn; (done || lia).
Qed.

(** X14: when probing the stream information fails, both setup
    functions return -1 after closing the decoding context the decoder
    held, if any: the selection, the stream, the decoder, the accelerator
    and the rate-emulation origin are as before, no context is allocated,
    and the earlier context is left closed. *)
Theorem setup_probe_failure env format d :
  (avformat_find_stream_info env).1 < 0 →
  ∃ d1 d2,
    setupFromAudioData env format d
      = Some (-1, d1, if decoderCtx_ d is Some _ then [EvCodecClose] else []) ∧
    setupFromVideoData env d
      = Some (-1, d2, if decoderCtx_ d is Some _ then [EvCodecClose] else []) ∧
    failed_setup_state d d1 ∧ failed_setup_state d d2.
Proof.
  intros Hprobe.
  unfold setupFromAudioData, setupFromVideoData, failed_setup_state.
  destruct (avformat_find_stream_info env) as [ret tbl]. cbn [fst] in Hprobe.
  run_M. getters. rewrite (proj2 (Z.ltb_lt _ _) Hprobe).
  destruct (decoderCtx_ d) eqn:Hctx; run_M; getters;
    (do 2 eexists; split; [reflexivity|split; [reflexivity|]]);
    getters; by rewrite Hctx.
Qed.

(** X15: on a decoder that has no stream selected, a setup call always
    returns (it never indexes the stream table out of range), and when it
    succeeds the selected stream is a stream of the requested kind, at the
    position of the first such stream in the probed table. *)
Theorem first_setup_selects_requested_kind env format d :
  streamIndex_ d = -1 →
  Z.of_nat (length (avformat_find_stream_info env).2) ≤ 2 ^ 31 →
  (∃ r d' t,
     setupFromAudioData env format d = Some (r, d', t) ∧
     (r = 0 →
      ∃ st i, avStream_ d' = Some st ∧
              codec_type (codecpar st) = AVMEDIA_TYPE_AUDIO ∧
              streamIndex_ d' = Z.of_nat i ∧
              first_of_kind AVMEDIA_TYPE_AUDIO
                (avformat_find_stream_info env).2 = Some i)) ∧
  (∃ r d' t,
     setupFromVideoData env d = Some (r, d', t) ∧
     (r = 0 →
      ∃ st i, avStream_ d' = Some st ∧
              codec_type (codecpar st) = AVMEDIA_TYPE_VIDEO ∧
              streamIndex_ d' = Z.of_nat i ∧
              first_of_kind AVMEDIA_TYPE_VIDEO
                (avformat_find_stream_info env).2 = Some i)).
Proof.
  intros Hidx Hlen. unfold setupFromAudioData, setupFromVideoData.
  destruct (avformat_find_stream_info env) as [ret tbl]. cbn [snd] in *.
  split.
  - run_M. getters.
    destruct (first_of_kind AVMEDIA_TYPE_AUDIO tbl) as [i|] eqn:Hfirst.
    + destruct (first_of_kind_lookup _ _ _ Hfirst) as (st & Hst & Hkind).
      pose proof (scan_streams_first _ tbl 0 i Hlen Hfirst) as Hscan.
      rewrite Nat.add_0_l in Hscan.
      assert (E1 : (Z.of_nat i =? -1) = false) by lia.
      assert (E2 : (Z.of_nat i <? 0) = false) by lia.
      destruct (decoderCtx_ d) eqn:Hctx; run_M; getters;
        (destruct (ret <? 0); run_M; getters;
         [do 3 eexists; split; [reflexivity|done]|]);
        repeat (progress (run_M; getters;
                          rewrite ?Hidx, ?Hscan, ?E1, ?E2, ?Nat2Z.id, ?Hst));
        by_cases; do 3 eexists; (split; [reflexivity|]); try done;
        intros _; exists st, i; getters; done.
    + pose proof (scan_streams_none _ tbl 0 Hfirst) as Hscan.
      destruct (decoderCtx_ d) eqn:Hctx; run_M; getters;
        (destruct (ret <? 0); run_M; getters;
         [do 3 eexists; split; [reflexivity|done]|]);
        rewrite Hidx, Hscan; cbn [Z.eqb Pos.eqb]; run_M;
        do 3 eexists; (split; [reflexivity|]); done.
  - run_M. getters.
    destruct (first_of_kind AVMEDIA_TYPE_VIDEO tbl) as [i|] eqn:Hfirst.
    + destruct (first_of_kind_lookup _ _ _ Hfirst) as (st & Hst & Hkind).
      pose proof (scan_streams_first _ tbl 0 i Hlen Hfirst) as Hscan.
      rewrite Nat.add_0_l in Hscan.
      assert (E1 : (Z.of_nat i =? -1) = false) by lia.
      assert (E2 : (Z.of_nat i <? 0) = false) by lia.
      destruct (decoderCtx_ d) eqn:Hctx; run_M; getters;
        (destruct (ret <? 0); run_M; getters;
         [do 3 eexists; split; [reflexivity|done]|]);
        repeat (progress (run_M; getters;
                          rewrite ?Hidx, ?Hscan, ?E1, ?E2, ?Nat2Z.id, ?Hst));
        by_cases; do 3 eexists; (split; [reflexivity|]); try done;
        intros _; exists st, i; getters; done.
    + pose proof (scan_streams_none _ tbl 0 Hfirst) as Hscan.
      destruct (decoderCtx_ d) eqn:Hctx; run_M; getters;
        (destruct (ret <? 0); run_M; getters;
         [do 3 eexists; split; [reflexivity|done]|]);
        rewrite Hidx, Hscan; cbn [Z.eqb Pos.eqb]; run_M;
        do 3 eexists; (split; [reflexivity|]); done.
Qed.

Lemma setupFromAudioData_members env format d d' t :
  setupFromAudioData env format d = Some (0, d', t) →
  ∃ ctx st, decoderCtx_ d' = Some ctx ∧ avStream_ d' = Some st ∧
            channels ctx = to_int (fmt_nb_channels format).
Proof.
  unfold setupFromAudioData.
  destruct (avformat_find_stream_info env) as [ret tbl]. run_M. getters.
  by_cases; intros [= <- <-]; getters; do 2 eexists; done.
Qed.

Lemma setupFromVideoData_members env d d' t :
  setupFromVideoData env d = Some (0, d', t) →
  ∃ ctx st, decoderCtx_ d' = Some ctx ∧ avStream_ d' = Some st.
Proof.
  unfold setupFromVideoData.
  destruct (avformat_find_stream_info env) as [ret tbl]. run_M. getters.
  by_cases; intros [= <- <-]; getters; do 2 eexists; done.
Qed.

(** X16: on a new decoder every accessor dereferences a null member;
    after a successful setup [getWidth], [getHeight], [getDecoderName],
    [getFps] and [getTimeBase] return the fields of the decoding context
    and of the selected stream, and change nothing. *)
Theorem accessors_defined_after_setup :
  (∀ emulate accel,
     getWidth (MediaDecoder_new emulate accel) = None ∧
     getHeight (MediaDecoder_new emulate accel) = None ∧
     getDecoderName (MediaDecoder_new emulate accel) = None ∧
     getFps (MediaDecoder_new emulate accel) = None ∧
     getTimeBase (MediaDecoder_new emulate accel) = None) ∧
  (∀ env format d d' t,
     setupFromAudioData env format d = Some (0, d', t) ∨
     setupFromVideoData env d = Some (0, d', t) →
     ∃ ctx st,
       decoderCtx_ d' = Some ctx ∧ avStream_ d' = Some st ∧
       getWidth d' = Some (width ctx, d', []) ∧
       getHeight d' = Some (height ctx, d', []) ∧
       getDecoderName d' = Some (codec_name (codec ctx), d', []) ∧
       getFps d' = Some (avg_frame_rate st, d', []) ∧
       getTimeBase d'
         = Some ({| num := to_unsigned (num (time_base st));
                    den := to_unsigned (den (time_base st)) |}, d', [])).
Proof.
  split; [done|].
  intros env format d d' t Hrun.
  assert (∃ ctx st, decoderCtx_ d' = Some ctx ∧ avStream_ d' = Some st)
    as (ctx & st & Hctx & Hst).
  { destruct Hrun as [Hrun|Hrun].
    - apply setupFromAudioData_members in Hrun as (? & ? & ? & ? & _). eauto.
    - by apply setupFromVideoData_members in Hrun. }
  exists ctx, st.
  unfold getWidth, getHeight, getDecoderName, getFps, getTimeBase.
  run_M. rewrite Hctx, Hst. done.
Qed.

Section SetupMore.
Context `{External}.

(** X17: after a successful [setupFromAudioData] for a format whose
    channel count fits [unsigned], [writeToRingBuffer] returns for every
    frame and output format, and the buffer it appends to the ring buffer
    has the sample rate of the output format and the channel count asked
    for at setup. *)
Theorem audio_setup_then_write env format frame rb outFormat d d' t :
  setupFromAudioData env format d = Some (0, d', t) →
  0 ≤ fmt_nb_channels format < 2 ^ 32 →
  ∃ d'' b t',
    writeToRingBuffer frame rb outFormat d' = Some (rb ++ [b], d'', t') ∧
    buf_format b = {| fmt_sample_rate := fmt_sample_rate outFormat;
                      fmt_nb_channels := fmt_nb_channels format |}.
Proof.
  intros Hsetup Hch.
  apply setupFromAudioData_members in Hsetup as (ctx & _ & Hctx & _ & Hchan).
  destruct (writeToRingBuffer_call frame rb outFormat d' ctx Hctx)
    as (d'' & b & t' & Hrun & Hb & _ & _ & _ & Hdec & Hres).
  exists d'', b, t'. split; [exact Hrun|].
  rewrite Hchan, to_unsigned_to_int, Z.mod_small in Hdec, Hres by done.
  destruct (rates_differ (frame, outFormat)) eqn:Hdiff; subst b.
  - by apply Hres.
  - rewrite Hdec. f_equal. unfold rates_differ in Hdiff. cbn in Hdiff.
    to_Z. done.
Qed.

(** ** Opening the input, continued *)

Lemma openInput_members env params d :
  ∃ opts d',
    openInput env params d
      = Some ((avformat_open_input env).1.1, d',
              [EvOpenInput (input params) (dev_format params) opts]) ∧
    options_ d' = (avformat_open_input env).1.2 ∧
    enableAccel_ d' = enableAccel_ d && getDecodingAccelerated env ∧
    accel_ d' = accel_ d ∧ decoderCtx_ d' = decoderCtx_ d.
Proof.
  unfold openInput.
  destruct (avformat_open_input env) as [[ret unused] tbl].
  destruct (negb (String.eqb (pixel_format params) "")),
    (nonzero (channel params)),
    (nonzero (offset_x params) || nonzero (offset_y params)),
    (rational_bool (framerate params)),
    (nonzero (dev_width params) && nonzero (dev_height params)),
    (ret =? 0); do 2 eexists; (split; [reflexivity|]); getters;
    repeat split; reflexivity.
Qed.

(** X18: [openInput] calls [avformat_open_input] once and returns its
    result code; afterwards the decoder holds the options the demuxer left
    over, and acceleration is enabled only if it was before and the
    process-wide setting allows it.  The dictionary passed starts from the
    one the decoder held: a key [openInput] does not write, and a
    conditional key whose condition does not hold, keeps its earlier
    value; "framerate" is written exactly when the frame rate is
    non-zero. *)
Theorem openInput_passes_earlier_options env params d :
  ∃ opts d',
    openInput env params d
      = Some ((avformat_open_input env).1.1, d',
              [EvOpenInput (input params) (dev_format params) opts]) ∧
    options_ d' = (avformat_open_input env).1.2 ∧
    enableAccel_ d' = enableAccel_ d && getDecodingAccelerated env ∧
    (∀ k, k ∉ openInput_keys → opts !! k = options_ d !! k) ∧
    opts !! "framerate"
      = (if rational_bool (framerate params)
         then Some (rational_real_to_string (framerate params))
         else options_ d !! "framerate") ∧
    (dev_width params = 0%N ∨ dev_height params = 0%N →
     opts !! "video_size" = options_ d !! "video_size") ∧
    (channel params = 0%N → opts !! "channel" = options_ d !! "channel") ∧
    (pixel_format params = "" →
     opts !! "pixel_format" = options_ d !! "pixel_format") ∧
    (offset_x params = 0%N → offset_y params = 0%N →
     opts !! "offset_x" = options_ d !! "offset_x" ∧
     opts !! "offset_y" = options_ d !! "offset_y").
Proof.
  destruct (openInput_members env params d)
    as (opts & d' & Hrun & Hleft & Hflag & _).
  exists opts, d'. split; [exact Hrun|].
  split; [exact Hleft|]. split; [exact Hflag|].
  pose proof (openInput_trace env params d) as Htrace.
  rewrite Hrun in Htrace. injection Htrace as ->.
  rewrite !nonzero_spec.
  split; [|split; [|split; [|split; [|split]]]].
  - intros k Hk. unfold openInput_keys in Hk.
    rewrite !not_elem_of_cons in Hk.
    destruct Hk as (? & ? & ? & ? & ? & ? & ? & ? & ? & ? & _).
    repeat first [ rewrite lookup_insert_ne by done
                 | rewrite lookup_dict_set_if_ne by done ].
    done.
  - dict_lookup. done.
  - intros Hzero. dict_lookup.
    repeat case_bool_decide; (done || (exfalso; tauto)).
  - intros Hzero. dict_lookup. by rewrite bool_decide_false by tauto.
  - intros ->. by dict_lookup.
  - intros Hx Hy. split; dict_lookup;
      by rewrite !bool_decide_false by tauto.
Qed.

End SetupMore.

(** X19: clearing the interrupt callback keeps the opaque pointer: after
    [setInterruptCallback(cb, p)] with a non-null [cb], a call with a null
    callback sets the callback to null and leaves [p] in place, ignoring
    its own second argument; nothing else of the decoder changes. *)
Theorem interrupt_callback_clear_keeps_opaque cb cb_opaque other d :
  cb ≠ 0 →
  ∃ d',
    (setInterruptCallback cb cb_opaque;; setInterruptCallback 0 other) d
      = Some ((), d', []) ∧
    interrupt_callback (inputCtx_ d') = 0 ∧
    interrupt_opaque (inputCtx_ d') = cb_opaque ∧
    d' = set_inputCtx_
           (set_interrupt_opaque cb_opaque
              (set_interrupt_callback 0 (inputCtx_ d))) d.
Proof.
  intros Hcb. unfold setInterruptCallback.
  rewrite (proj2 (Z.eqb_neq _ _) Hcb). run_M. cbn [Z.eqb negb].
  run_M. eexists. split; [reflexivity|]. getters.
  by destruct d as [? ? [] ? ? ? ? ? ? ? ? ? ?].
Qed.

(** ** The accelerator handle *)

Section AccelFacts.
Context `{External}.

Lemma step_accelerator env op d d' t :
  step env op d = Some ((), d', t) →
  (accel_ d = None →
   extractions t = [] ∧
   (accel_ d' = None ∨
    op = SetupFromVideoData ∧ enableAccel_ d = true ∧
    accel_ d' = makeHardwareAccel env)) ∧
  (enableAccel_ d = false →
   enableAccel_ d' = false ∨ op = EnableAccel true) ∧
  (enableAccel_ d = false → accel_ d = None → op ≠ EnableAccel true →
   accel_ d' = None).
Proof.
  intros Hstep. destruct op; cbn [step] in Hstep;
    try (apply discard_result_inv in Hstep as [r Hstep]); revert Hstep.
  - destruct (openInput_members env params d)
      as (opts & d1 & -> & _ & Hflag & Haccel & _).
    intros [= <- <- <-]. rewrite Hflag, Haccel.
    repeat split; auto; intros ->; auto.
  - unfold setInterruptCallback. run_M. by_cases.
    all: intros [= <- <-]; getters; repeat split; auto.
  - unfold setIOContext. run_M.
    intros [= <- <-]; getters; repeat split; auto.
  - unfold setupFromAudioData.
    destruct (avformat_find_stream_info env) as [ret tbl]. run_M. getters.
    by_cases; intros [= <- <- <-]; getters; repeat split; auto.
  - unfold setupFromVideoData.
    destruct (avformat_find_stream_info env) as [ret tbl]. run_M. getters.
    by_cases; intros [= <- <- <-]; getters; repeat split; auto;
      congruence.
  - unfold decode_video, emulate_rate, getTimeBase. run_M. getters.
    by_cases; intros [= <- <- <-]; getters; repeat split; auto;
      intros; simplify_eq/=; try done;
      try (destruct (accel_ d); simplify_eq/=; auto).
  - unfold decode_audio, emulate_rate, getTimeBase. run_M. getters.
    by_cases; intros [= <- <- <-]; getters; repeat split; auto;
      intros; simplify_eq/=; try done;
      try (destruct (accel_ d); simplify_eq/=; auto).
  - unfold enableAccel. run_M. destruct enable; run_M;
      intros [= <- <-]; getters; repeat split; auto; try done.
  - unfold flush. run_M. getters.
    by_cases; intros [= <- <- <-]; getters; repeat split; auto;
      intros; simplify_eq/=; try done;
      try (destruct (accel_ d); simplify_eq/=; auto).
  - unfold writeToRingBuffer. run_M. getters.
    by_cases; intros [= <- <- <-]; getters; repeat split; auto.
Qed.

(** X20: the only operation that attaches an accelerator to a decoder
    without one is [setupFromVideoData], and only while acceleration is
    enabled; the accelerator is the one made for the new context. *)
Theorem accelerator_attached_only_by_video_setup env op d d' t :
  step env op d = Some ((), d', t) →
  accel_ d = None →
  is_Some (accel_ d') →
  op = SetupFromVideoData ∧ enableAccel_ d = true ∧
  accel_ d' = makeHardwareAccel env.
Proof.
  intros Hstep Hnone Hsome.
  destruct (step_accelerator env op d d' t Hstep) as (Hacc & _).
  destruct (Hacc Hnone) as (_ & [Hstill|?]); [|done].
  rewrite Hstill in Hsome. by destruct Hsome.
Qed.

(** X21: on a decoder with acceleration disabled and no accelerator, any
    series of operations that does not call [enableAccel(true)] leaves
    acceleration disabled and no accelerator attached, and never calls
    [extractData]. *)
Theorem software_fallback_sticks ops d d' t :
  enableAccel_ d = false →
  accel_ d = None →
  Forall (λ eo, eo.2 ≠ EnableAccel true) ops →
  run ops d = Some ((), d', t) →
  enableAccel_ d' = false ∧ accel_ d' = None ∧ extractions t = [].
Proof.
  revert d t. induction ops as [|[env op] ops IH];
    intros d t Hflag Haccel Hops Hrun.
  - by injection Hrun as <- <-.
  - apply Forall_cons in Hops as [Hop Hops]. cbn [snd] in Hop.
    apply run_cons_inv in Hrun as (d1 & t1 & t2 & Hstep & Hrest & ->).
    destruct (step_accelerator env op d d1 t1 Hstep) as (Ha & Hf & Hk).
    destruct (Ha Haccel) as (Ht1 & _).
    destruct (Hf Hflag) as [Hflag1|?]; [|done].
    destruct (IH d1 t2 Hflag1 (Hk Hflag Haccel Hop) Hops Hrest)
      as (? & ? & Ht2).
    rewrite extractions_app, Ht1, Ht2. done.
Qed.

End AccelFacts.

(** ** The further properties on concrete runs *)

Import Scenario.

(** X1, at the end of the stream. *)
Lemma decode_read_failure_run :
  ∃ s,
    @decode_video ffmpeg3 env_end_of_stream blank_frame (ready None)
      = Some ((s, blank_frame), ready None, []) ∧
    @decode_audio ffmpeg3 env_end_of_stream blank_frame (ready None)
      = Some ((s, blank_frame), ready None, []) ∧
    s = EOFError.
Proof.
  assert (Hneg : (av_read_frame env_end_of_stream).1 < 0) by reflexivity.
  destruct (@decode_read_failure ffmpeg3 env_end_of_stream blank_frame
              (ready None) Hneg) as (s & Hv & Ha & _ & Heof & _).
  exists s. split; [exact Hv|]. split; [exact Ha|]. by apply Heof.
Defined.

(** X2, on a frame produced while the accelerator has failed. *)
Lemma restart_requires_failed_accelerator_run :
  ∃ f d' t,
    @decode_video ffmpeg3 env_frame_accel_failed blank_frame
      (ready failed_accel)
      = Some ((RestartRequired, f), d', t) ∧
    accel_ d' = Some {| hasFailed := true |} ∧ extractions t = [].
Proof.
  assert (Hrun : ∃ f d' t,
            @decode_video ffmpeg3 env_frame_accel_failed blank_frame
              (ready failed_accel)
            = Some ((RestartRequired, f), d', t))
    by (vm_compute; do 3 eexists; reflexivity).
  destruct Hrun as (f & d' & t & Hrun). exists f, d', t.
  split; [exact Hrun|].
  apply (@restart_requires_failed_accelerator ffmpeg3 _ _ _ _ _ _ Hrun).
Defined.

(** X5, on a packet for which the codec has no frame ready. *)
Lemma decode_video_releases_packet_run :
  unrefs (trace_of (@decode_video ffmpeg3 env_no_frame blank_frame
                      (ready None)))
    = [(av_read_frame env_no_frame).2].
Proof.
  apply (@decode_video_releases_packet ffmpeg3 env_no_frame blank_frame
           (ready None)).
  - vm_compute. discriminate.
  - vm_compute. discriminate.
  - reflexivity.
  - vm_compute. eauto.
Defined.

(** X6, on a decoded frame without accelerator. *)
Lemma decode_video_frame_finished_iff_run :
  FrameFinished = FrameFinished ↔
    0 ≤ (av_read_frame env_frame).1 ∧
    stream_index (av_read_frame env_frame).2 = streamIndex_ (ready None) ∧
    0 ≤ (avcodec_send_packet env_frame).1 ∧
    0 ≤ (avcodec_receive_frame env_frame).1.1 ∧
    (accel_ (ready None) = None ∨ (avcodec_receive_frame env_frame).2 = false).
Proof.
  assert (Hrun : ∃ f d' t,
            @decode_video ffmpeg3 env_frame blank_frame (ready None)
            = Some ((FrameFinished, f), d', t))
    by (vm_compute; do 3 eexists; reflexivity).
  destruct Hrun as (f & d' & t & Hrun).
  apply (@decode_video_frame_finished_iff ffmpeg3 _ _ _ _ _ _ _ Hrun).
Defined.

(** X7, on a decoded audio frame. *)
Lemma decode_audio_frame_finished_iff_run :
  ∃ f d' t,
    @decode_audio ffmpeg3 env_frame blank_frame (ready None)
      = Some ((FrameFinished, f), d', t) ∧
    unrefs t = [(av_read_frame env_frame).2] ∧
    f = (avcodec_receive_frame env_frame).1.2.
Proof.
  assert (Hrun : ∃ f d' t,
            @decode_audio ffmpeg3 env_frame blank_frame (ready None)
            = Some ((FrameFinished, f), d', t))
    by (vm_compute; do 3 eexists; reflexivity).
  destruct Hrun as (f & d' & t & Hrun). exists f, d', t.
  split; [exact Hrun|].
  by apply (@decode_audio_frame_finished_iff ffmpeg3 _ _ _ _ _ _ _ Hrun).
Defined.

(** X9, on a decoder without rate emulation. *)
Lemma decode_sleeps_only_when_emulating_run :
  sleeps (trace_of (@decode_video ffmpeg3 env_frame blank_frame (ready None)))
    = [] ∧
  sleeps (trace_of (@decode_audio ffmpeg3 env_frame blank_frame (ready None)))
    = [].
Proof.
  apply (proj1 (@decode_sleeps_only_when_emulating ffmpeg3 env_frame
                  blank_frame (ready None))).
  reflexivity.
Defined.

(** X10, on a YUVJ420P frame decoded in software. *)
Lemma decode_video_software_frame_normalized_run :
  ∃ f d' t,
    @decode_video ffmpeg3 env_frame blank_frame (ready None)
      = Some ((FrameFinished, f), d', t) ∧
    format (avcodec_receive_frame env_frame).1.2 = 12 ∧
    format f = 0.
Proof.
  assert (Hnd : NoDup (@pix_fmt_enumerators ffmpeg3)).
  { apply (bool_decide_unpack _). vm_compute. exact I. }
  assert (Hrun : ∃ f d' t,
            @decode_video ffmpeg3 env_frame blank_frame (ready None)
            = Some ((FrameFinished, f), d', t))
    by (vm_compute; do 3 eexists; reflexivity).
  destruct Hrun as (f & d' & t & Hrun). exists f, d', t.
  split; [exact Hrun|]. split; [reflexivity|].
  destruct (@decode_video_software_frame_normalized ffmpeg3 env_frame
              blank_frame (ready None) f d' t Hnd eq_refl Hrun) as (-> & _).
  reflexivity.
Defined.

(** X11, on a decoded frame without accelerator. *)
Lemma decode_touches_only_accelerator_run :
  ∃ r d' t,
    @decode_video ffmpeg3 env_frame blank_frame (ready None)
      = Some (r, d', t) ∧
    d' = ready None.
Proof.
  assert (Hrun : ∃ r d' t,
            @decode_video ffmpeg3 env_frame blank_frame (ready None)
            = Some (r, d', t))
    by (vm_compute; do 3 eexists; reflexivity).
  destruct Hrun as (r & d' & t & Hrun). exists r, d', t.
  split; [exact Hrun|].
  by apply (@decode_touches_only_accelerator ffmpeg3 env_frame blank_frame
              (ready None) r d' t (or_introl Hrun)).
Defined.

(** X12, on the video setup of a new decoder with 8 hardware threads. *)
Lemma setupFromVideoData_success_run :
  ∃ d' t ctx,
    setupFromVideoData env_video_only_100 (MediaDecoder_new false true)
      = Some (0, d', t) ∧
    decoderCtx_ d' = Some ctx ∧ is_open ctx = true ∧
    1 ≤ thread_count ctx ≤ 8.
Proof.
  assert (Hrun : ∃ d' t,
            setupFromVideoData env_video_only_100 (MediaDecoder_new false true)
            = Some (0, d', t))
    by (vm_compute; do 2 eexists; reflexivity).
  destruct Hrun as (d' & t & Hrun).
  destruct (setupFromVideoData_success _ _ _ _ Hrun)
    as (st & dec & ctx & _ & _ & _ & _ & _ & _ & _ & _ & _ & Hctx & Hopen
        & Hthreads & _).
  by exists d', t, ctx.
Defined.

(** X13, on the audio setup of a new decoder for CD-quality output. *)
Lemma setupFromAudioData_success_run :
  ∃ d' t ctx,
    setupFromAudioData env_video_audio cd_quality (MediaDecoder_new false true)
      = Some (0, d', t) ∧
    decoderCtx_ d' = Some ctx ∧
    channels ctx = to_int (fmt_nb_channels cd_quality) ∧
    ctx_sample_rate ctx = to_int (fmt_sample_rate cd_quality).
Proof.
  assert (Hrun : ∃ d' t,
            setupFromAudioData env_video_audio cd_quality
              (MediaDecoder_new false true)
            = Some (0, d', t))
    by (vm_compute; do 2 eexists; reflexivity).
  destruct Hrun as (d' & t & Hrun).
  destruct (setupFromAudioData_success _ _ _ _ _ Hrun)
    as (st & dec & ctx & _ & _ & _ & _ & _ & _ & _ & _ & _ & Hctx & _ & _
        & Hch & Hrate & _).
  by exists d', t, ctx.
Defined.

(** X14, on a source whose probe fails, for a new decoder. *)
Lemma setup_probe_failure_run :
  ∃ d1 d2,
    setupFromAudioData env_probe_failure cd_quality
      (MediaDecoder_new false true) = Some (-1, d1, []) ∧
    setupFromVideoData env_probe_failure (MediaDecoder_new false true)
      = Some (-1, d2, []) ∧
    failed_setup_state (MediaDecoder_new false true) d1 ∧
    failed_setup_state (MediaDecoder_new false true) d2.
Proof.
  apply (setup_probe_failure env_probe_failure cd_quality
           (MediaDecoder_new false true)).
  reflexivity.
Defined.

(** X15, on a source with a video stream followed by an audio stream. *)
Lemma first_setup_selects_requested_kind_run :
  ∃ r d' t,
    setupFromAudioData env_video_audio cd_quality (MediaDecoder_new false true)
      = Some (r, d', t) ∧
    (r = 0 →
     ∃ st i, avStream_ d' = Some st ∧
             codec_type (codecpar st) = AVMEDIA_TYPE_AUDIO ∧
             streamIndex_ d' = Z.of_nat i ∧
             first_of_kind AVMEDIA_TYPE_AUDIO
               (avformat_find_stream_info env_video_audio).2 = Some i).
Proof.
  apply (first_setup_selects_requested_kind env_video_audio cd_quality
           (MediaDecoder_new false true)).
  - reflexivity.
  - vm_compute. discriminate.
Defined.

(** X16, after the video setup of a new decoder. *)
Lemma accessors_defined_after_setup_run :
  ∃ d' t ctx,
    setupFromVideoData env_video_only_100 (MediaDecoder_new false true)
      = Some (0, d', t) ∧
    getWidth d' = Some (width ctx, d', []) ∧
    getHeight d' = Some (height ctx, d', []).
Proof.
  assert (Hrun : ∃ d' t,
            setupFromVideoData env_video_only_100 (MediaDecoder_new false true)
            = Some (0, d', t))
    by (vm_compute; do 2 eexists; reflexivity).
  destruct Hrun as (d' & t & Hrun).
  destruct (proj2 accessors_defined_after_setup env_video_only_100 cd_quality
              (MediaDecoder_new false true) d' t (or_intror Hrun))
    as (ctx & st & _ & _ & Hw & Hh & _).
  by exists d', t, ctx.
Defined.

(** X17, on an audio setup for CD-quality output followed by a write for
    a 16 kHz consumer. *)
Lemma audio_setup_then_write_run :
  ∃ d' t d'' b t',
    setupFromAudioData env_video_audio cd_quality (MediaDecoder_new false true)
      = Some (0, d', t) ∧
    @writeToRingBuffer ffmpeg3 decoded_frame [] wideband d'
      = Some ([] ++ [b], d'', t') ∧
    buf_format b = {| fmt_sample_rate := 16000; fmt_nb_channels := 2 |}.
Proof.
  assert (Hrun : ∃ d' t,
            setupFromAudioData env_video_audio cd_quality
              (MediaDecoder_new false true)
            = Some (0, d', t))
    by (vm_compute; do 2 eexists; reflexivity).
  destruct Hrun as (d' & t & Hrun).
  assert (Hch : 0 ≤ fmt_nb_channels cd_quality < 2 ^ 32) by (cbn; lia).
  destruct (@audio_setup_then_write ffmpeg3 env_video_audio cd_quality
              decoded_frame [] wideband _ d' t Hrun Hch)
    as (d'' & b & t' & Hwrite & Hfmt).
  by exists d', t, d'', b, t'.
Defined.

(** X18, on a capture device without pixel format, for a new decoder. *)
Lemma openInput_passes_earlier_options_run :
  ∃ opts d',
    @openInput ffmpeg3 env_frame webcam (MediaDecoder_new false true)
      = Some (0, d', [EvOpenInput "/dev/video0" "video4linux2" opts]) ∧
    opts !! "pixel_format" = None.
Proof.
  destruct (@openInput_passes_earlier_options ffmpeg3 env_frame webcam
              (MediaDecoder_new false true))
    as (opts & d' & Hrun & _ & _ & _ & _ & _ & _ & Hpix & _).
  exists opts, d'. split; [exact Hrun|]. by rewrite Hpix.
Defined.

(** X19, on a callback at address 4096 with opaque pointer 8192. *)
Lemma interrupt_callback_clear_keeps_opaque_run :
  ∃ d',
    (setInterruptCallback 4096 8192;; setInterruptCallback 0 0)
      (MediaDecoder_new false true)
      = Some ((), d', []) ∧
    interrupt_callback (inputCtx_ d') = 0 ∧
    interrupt_opaque (inputCtx_ d') = 8192.
Proof.
  destruct (interrupt_callback_clear_keeps_opaque 4096 8192 0
              (MediaDecoder_new false true) ltac:(discriminate))
    as (d' & Hrun & Hcb & Hop & _).
  by exists d'.
Defined.

(** X20, on the video setup of a new decoder with acceleration enabled. *)
Lemma accelerator_attached_only_by_video_setup_run :
  ∃ d' t,
    @step ffmpeg3 env_video_only_100 SetupFromVideoData
      (MediaDecoder_new false true)
      = Some ((), d', t) ∧
    accel_ d' = makeHardwareAccel env_video_only_100.
Proof.
  assert (Hrun : ∃ d' t,
            @step ffmpeg3 env_video_only_100 SetupFromVideoData
              (MediaDecoder_new false true)
            = Some ((), d', t) ∧ is_Some (accel_ d'))
    by (vm_compute; do 2 eexists; split; [reflexivity|eauto]).
  destruct Hrun as (d' & t & Hrun & Hsome). exists d', t.
  split; [exact Hrun|].
  by apply (@accelerator_attached_only_by_video_setup ffmpeg3
              env_video_only_100 SetupFromVideoData
              (MediaDecoder_new false true) d' t Hrun eq_refl Hsome).
Defined.

(** X21, on a video setup and a decode with acceleration disabled. *)
Lemma software_fallback_sticks_run :
  ∃ d' t,
    run software_session (MediaDecoder_new false false)
      = Some ((), d', t) ∧
    enableAccel_ d' = false ∧ accel_ d' = None ∧ extractions t = [].
Proof.
  assert (Hrun : ∃ d' t,
            run software_session (MediaDecoder_new false false)
            = Some ((), d', t))
    by (vm_compute; do 2 eexists; reflexivity).
  destruct Hrun as (d' & t & Hrun). exists d', t.
  split; [exact Hrun|].
  apply (@software_fallback_sticks ffmpeg3 software_session
           (MediaDecoder_new false false) d' t eq_refl eq_refl);
    [|exact Hrun].
  repeat constructor; discriminate.
Defined.
